(** * TabulaRAG front end: upload polling, slice fetching and highlight projection

    A shallow embedding of the TypeScript front end of TabulaRAG
    (api.ts, components/DataTable.tsx, pages/HighlightView.tsx,
    pages/Upload.tsx, pages/TableView.tsx) and the properties its
    specification states about it.

    Conventions of the embedding:
    - a JavaScript [number] that holds a row index is an integer, extended
      with the three non-finite values the code can produce
      ([Math.min()] of no arguments is [Infinity], and so on); fractions and
      the loss of precision above 2^53 are outside the model;
    - an optional or nullable field is an [option];
    - a [Set] is a [gset], a record of cells is a [gmap] from column name to
      the cell's text;
    - an [async] function is a function from the world (the component's
      state and the chronological log of backend calls) to a completion and
      the world after it; the backend is a record of answers, and the
      unbounded polling loop runs on fuel. *)

From stdpp Require Import base strings list gmap pretty.

Open Scope Z_scope.

(** ** JavaScript values *)

Module Js.

(** Integer-valued numbers with the non-finite values. *)
Inductive number : Type :=
| NaN
| NegInfinity
| Int (z : Z)
| Infinity.

Definition neg (a : number) : number :=
  match a with
  | NaN => NaN
  | NegInfinity => Infinity
  | Int z => Int (- z)
  | Infinity => NegInfinity
  end.

(** [a + b] *)
Definition add (a b : number) : number :=
  match a, b with
  | NaN, _ | _, NaN => NaN
  | Infinity, NegInfinity | NegInfinity, Infinity => NaN
  | Infinity, _ | _, Infinity => Infinity
  | NegInfinity, _ | _, NegInfinity => NegInfinity
  | Int x, Int y => Int (x + y)
  end.

(** [a - b] *)
Definition sub (a b : number) : number := add a (neg b).

Definition max2 (a b : number) : number :=
  match a, b with
  | NaN, _ | _, NaN => NaN
  | Infinity, _ | _, Infinity => Infinity
  | NegInfinity, c | c, NegInfinity => c
  | Int x, Int y => Int (Z.max x y)
  end.

Definition min2 (a b : number) : number :=
  match a, b with
  | NaN, _ | _, NaN => NaN
  | NegInfinity, _ | _, NegInfinity => NegInfinity
  | Infinity, c | c, Infinity => c
  | Int x, Int y => Int (Z.min x y)
  end.

(** [Math.max(...args)]: [-Infinity] when there is no argument. *)
Definition Math_max (args : list number) : number := foldr max2 NegInfinity args.

(** [Math.min(...args)]: [Infinity] when there is no argument. *)
Definition Math_min (args : list number) : number := foldr min2 Infinity args.

(** [String(n)] *)
Definition String_of_number (n : number) : string :=
  match n with
  | NaN => "NaN"
  | NegInfinity => "-Infinity"
  | Int z => pretty z
  | Infinity => "Infinity"
  end.

(** A string is truthy unless it is empty. *)
Definition truthy (s : string) : bool := negb (bool_decide (s = "")).

(** An optional string is truthy when it is there and not empty. *)
Definition truthy_opt (o : option string) : bool :=
  match o with
  | Some s => truthy s
  | None => false
  end.

(** [o || d] on an optional string. *)
Definition or_else (o : option string) (d : string) : string :=
  match o with
  | Some s => if truthy s then s else d
  | None => d
  end.

(** [arr.join(sep)] *)
Fixpoint join (sep : string) (arr : list string) : string :=
  match arr with
  | [] => ""
  | [s] => s
  | s :: rest => s +:+ sep +:+ join sep rest
  end.

(** An [Error] object: its [name] and its [message]. *)
Record Error : Type := mkError { name : string; message : string }.

(** [new Error(msg)] *)
Definition new_Error (msg : string) : Error := mkError "Error" msg.

(** [Error.prototype.toString] *)
Definition toString (e : Error) : string :=
  if bool_decide (message e = "") then name e
  else if bool_decide (name e = "") then message e
  else name e +:+ ": " +:+ message e.

(** [String(e?.message || e)], the text every [catch] of the pages shows. *)
Definition error_text (e : Error) : string :=
  if truthy (message e) then message e else toString e.

End Js.

(** ** Backend records (api.ts and the REST surface it reads) *)

(** A record of cells: column name to cell text; an absent cell has no entry. *)
Abbreviation Row := (gmap string string).

Record File : Type := mkFile { file_name : string; file_body : string }.

(** [{ job_id }] of POST /upload *)
Record UploadResult : Type := mkUploadResult { job_id : option string }.

(** [{ status, progress, message?, table_id? }] of GET /jobs/{job_id} *)
Record Job : Type := mkJob {
  job_status : string;
  job_progress : option Z;
  job_message : option string;
  job_table_id : option string
}.

(** An entry of GET /tables *)
Record TableMeta : Type := mkTableMeta {
  tm_table_id : string;
  tm_name : string;
  tm_row_count : Z;
  tm_col_count : Z
}.

(** A row as the slice endpoint sends it: the record itself, which may carry
    the cells under a [data] field. *)
Record RawRow : Type := mkRawRow { raw_data : option Row; raw_self : Row }.

(** [{ columns, rows }] of GET /tables/{id}/slice *)
Record SliceData : Type := mkSliceData {
  sd_columns : list string;
  sd_rows : option (list RawRow)
}.

(** What [getSlice] returns: [{ ...data, rows, offset, limit }]. *)
Record Slice : Type := mkSlice {
  columns : list string;
  rows : list Row;
  offset : Js.number;
  limit : Js.number
}.

(** [{ rows, cols }] of an evidence range *)
Record Range : Type := mkRange {
  range_rows : option (list Z);
  range_cols : option (list string)
}.

Record Evidence : Type := mkEvidence { range : option Range }.

(** [{ table_id, evidence, rows?, cols? }] of GET /highlights/{id} *)
Record HighlightPayload : Type := mkHighlightPayload {
  table_id : string;
  evidence : option (list Evidence);
  top_rows : option (list Z);
  top_cols : option (list string)
}.

(** The query of a slice request: [offset], [limit] and, when column names
    were given, [cols]. *)
Record SliceRequest : Type := mkSliceRequest {
  rq_table : string;
  rq_offset : Js.number;
  rq_limit : Js.number;
  rq_cols : option string
}.

(** How a [fetch] followed by [res.json()] ends. *)
Inductive Response (A : Type) : Type :=
| Failed (e : Js.Error)      (* fetch or res.json() rejects *)
| NotOk (body : string)      (* !res.ok: the text of the body *)
| OkJson (data : A).
Arguments Failed {A} e.
Arguments NotOk {A} body.
Arguments OkJson {A} data.

(** The backend as the client sees it. The answer to a job poll may change
    from one poll to the next: it is indexed by the number of polls already
    made. *)
Record Backend : Type := mkBackend {
  on_upload : File -> string -> Response UploadResult;
  on_job : string -> nat -> Response Job;
  on_tables : Response (list TableMeta);
  on_slice : SliceRequest -> Response SliceData;
  on_highlight : string -> Response HighlightPayload
}.

(** What the client does to the outside, in the order it does it. *)
Inductive Event : Type :=
| CallUpload (f : File) (name : string)
| CallJob (jobId : string) (observed : Response Job)
| CallTables
| CallSlice (rq : SliceRequest)
| CallHighlight (highlightId : string)
| Sleep (ms : Z)               (* await new Promise(r => setTimeout(r, ms)) *)
| ClearToastAfter (ms : Z).    (* setTimeout(() => setToast(null), ms) *)

Definition is_job_call (ev : Event) : bool :=
  match ev with
  | CallJob _ _ => true
  | _ => false
  end.

(** Number of job polls in a log. *)
Definition polls (log : list Event) : nat := length (filter is_job_call log).

(** The slice requests of a log, in order. *)
Definition slice_calls (log : list Event) : list SliceRequest :=
  omap (fun ev => match ev with CallSlice rq => Some rq | _ => None end) log.

Definition is_tables_call (ev : Event) : bool :=
  match ev with
  | CallTables => true
  | _ => false
  end.

(** Number of table-list fetches in a log. *)
Definition table_calls (log : list Event) : nat := length (filter is_tables_call log).

(** ** Asynchronous functions over a component's state *)

(** How an [async] function ends: it returns, it throws, or (in the model
    only) the fuel of a loop ran out while it was still running. *)
Inductive Completion (A : Type) : Type :=
| Return (a : A)
| Throw (e : Js.Error)
| Running.
Arguments Return {A} a.
Arguments Throw {A} e.
Arguments Running {A}.

Section Async.

Context {St : Type}.

(** The component's state and the log of what it did so far. *)
Record World : Type := mkWorld { ui : St; log : list Event }.

Definition Async (A : Type) : Type := World -> Completion A * World.

Definition ret {A} (a : A) : Async A := fun w => (Return a, w).

Definition throw {A} (e : Js.Error) : Async A := fun w => (Throw e, w).

Definition out_of_fuel {A} : Async A := fun w => (Running, w).

Definition bind {A B} (m : Async A) (k : A -> Async B) : Async B :=
  fun w =>
    match m w with
    | (Return a, w') => k a w'
    | (Throw e, w') => (Throw e, w')
    | (Running, w') => (Running, w')
    end.

(** [try { m } catch (e) { h e }] *)
Definition try_catch {A} (m : Async A) (h : Js.Error -> Async A) : Async A :=
  fun w =>
    match m w with
    | (Throw e, w') => h e w'
    | other => other
    end.

(** [try { m } finally { f }], for an [f] that neither returns a value nor
    throws: [f] runs after [m] returned or threw. *)
Definition finally {A} (m : Async A) (f : St -> St) : Async A :=
  fun w =>
    match m w with
    | (Running, w') => (Running, w')
    | (c, w') => (c, mkWorld (f (ui w')) (log w'))
    end.

(** A state setter of the component. *)
Definition set (f : St -> St) : Async unit :=
  fun w => (Return tt, mkWorld (f (ui w)) (log w)).

Definition get : Async St := fun w => (Return (ui w), w).

(** Append an event to the log. *)
Definition emit (ev : Event) : Async unit :=
  fun w => (Return tt, mkWorld (ui w) (log w ++ [ev])).

(** [const res = await fetch(..); if (!res.ok) throw new Error(await
    res.text()); return res.json()] *)
Definition json_or_throw {A} (r : Response A) : Async A :=
  match r with
  | Failed e => throw e
  | NotOk body => throw (Js.new_Error body)
  | OkJson data => ret data
  end.

End Async.

Arguments World St : clear implicits.
Arguments Async St A : clear implicits.

Declare Scope async_scope.
Delimit Scope async_scope with async.
Notation "x <- m ;; k" := (bind m (fun x => k))
  (at level 100, m at next level, right associativity) : async_scope.
Notation "m ;; k" := (bind m (fun _ => k))
  (at level 100, right associativity) : async_scope.
Open Scope async_scope.

(** ** api.ts *)

Section Api.

Context {St : Type}.
Variable backend : Backend.

Definition uploadTable (f : File) (name : string) : Async St UploadResult :=
  emit (CallUpload f name) ;;
  json_or_throw (on_upload backend f name).

Definition listTables : Async St (list TableMeta) :=
  emit CallTables ;;
  json_or_throw (on_tables backend).

(** [Math.max(0, rowFrom)] *)
Definition slice_offset (rowFrom : Js.number) : Js.number :=
  Js.Math_max [Js.Int 0; rowFrom].

(** [Math.max(1, rowTo - rowFrom)] *)
Definition slice_limit (rowFrom rowTo : Js.number) : Js.number :=
  Js.Math_max [Js.Int 1; Js.sub rowTo rowFrom].

(** The request [getSlice] sends: [cols] is set only for a non-empty list. *)
Definition slice_request (tableId : string) (rowFrom rowTo : Js.number)
    (cols : option (list string)) : SliceRequest :=
  {| rq_table := tableId;
     rq_offset := slice_offset rowFrom;
     rq_limit := slice_limit rowFrom rowTo;
     rq_cols := match cols with
                | Some (c :: cs) => Some (Js.join "," (c :: cs))
                | _ => None
                end |}.

(** The query string of a request, as [url.searchParams] holds it. *)
Definition searchParams (rq : SliceRequest) : list (string * string) :=
  [("offset", Js.String_of_number (rq_offset rq));
   ("limit", Js.String_of_number (rq_limit rq))]
  ++ match rq_cols rq with
     | Some csv => [("cols", csv)]
     | None => []
     end.

(** [r.data ?? r] *)
Definition unwrap_row (r : RawRow) : Row := default (raw_self r) (raw_data r).

Definition getSlice (tableId : string) (rowFrom rowTo : Js.number)
    (cols : option (list string)) : Async St Slice :=
  let rq := slice_request tableId rowFrom rowTo cols in
  emit (CallSlice rq) ;;
  data <- json_or_throw (on_slice backend rq) ;;
  ret {| columns := sd_columns data;
         rows := unwrap_row <$> default [] (sd_rows data);
         offset := rq_offset rq;
         limit := rq_limit rq |}.

Definition getHighlight (highlightId : string) : Async St HighlightPayload :=
  emit (CallHighlight highlightId) ;;
  json_or_throw (on_highlight backend highlightId).

(** The poll's answer is the backend's answer to the poll of that number;
    the log keeps it with the call. *)
Definition getJob (jobId : string) : Async St Job :=
  fun w =>
    let r := on_job backend jobId (polls (log w)) in
    (emit (CallJob jobId r) ;; json_or_throw r) w.

End Api.

(** ** components/DataTable.tsx *)

#[global] Instance number_eq_dec : EqDecision Js.number.
Proof. solve_decision. Defined.

Definition number_code (n : Js.number) : Z + nat :=
  match n with
  | Js.Int z => inl z
  | Js.NaN => inr 0%nat
  | Js.NegInfinity => inr 1%nat
  | Js.Infinity => inr 2%nat
  end.

Definition number_decode (c : Z + nat) : Js.number :=
  match c with
  | inl z => Js.Int z
  | inr 0%nat => Js.NaN
  | inr 1%nat => Js.NegInfinity
  | inr _ => Js.Infinity
  end.

#[global] Instance number_countable : Countable Js.number.
Proof.
  apply (inj_countable' number_code number_decode).
  intros []; reflexivity.
Defined.

(** The [highlight] prop: [{ rows: number[]; cols: string[] }]. *)
Record Highlight : Type := mkHighlight { hl_rows : list Z; hl_cols : list string }.

(** A data cell [<td key={c} className=..>{r[c] ?? ""}</td>]. *)
Record Td : Type := mkTd { td_key : string; td_className : string; td_text : string }.

(** A body row [<tr key={i} data-row-index=..>]: the index cell, then one
    data cell per column. *)
Record Tr : Type := mkTr {
  tr_key : nat;
  tr_data_row_index : Js.number;
  tr_index_className : string;
  tr_index_text : Js.number;
  tr_cells : list Td
}.

Record Table : Type := mkTable { thead : list string; tbody : list Tr }.

(** The local row offsets that are highlighted:
    [new Set((highlight?.rows || []).map(r => r - rowOffset))]. *)
Definition hlRows (highlight : option Highlight) (rowOffset : Js.number) : gset Js.number :=
  list_to_set ((fun r => Js.sub (Js.Int r) rowOffset) <$> from_option hl_rows [] highlight).

(** [new Set(highlight?.cols || [])] *)
Definition hlCols (highlight : option Highlight) : gset string :=
  list_to_set (from_option hl_cols [] highlight).

(** [DataTable({ columns, rows, highlight, rowOffset = 0 })] *)
Definition DataTable (columns : list string) (rows : list Row)
    (highlight : option Highlight) (rowOffset : option Js.number) : Table :=
  let rowOffset := default (Js.Int 0) rowOffset in
  {| thead := columns;
     tbody :=
       imap (fun i r =>
         let isRowHL := bool_decide (Js.Int (Z.of_nat i) ∈ hlRows highlight rowOffset) in
         let rowIndex := Js.add (Js.Int (Z.of_nat i)) rowOffset in
         {| tr_key := i;
            tr_data_row_index := rowIndex;
            tr_index_className := "mono " +:+ (if isRowHL then "hl" else "");
            tr_index_text := Js.add (Js.Int (Z.of_nat i)) rowOffset;
            tr_cells :=
              (fun c =>
                 let isCellHL := isRowHL && bool_decide (c ∈ hlCols highlight) in
                 {| td_key := c;
                    td_className := if isCellHL then "hl" else "";
                    td_text := default "" (r !! c) |}) <$> columns |}) rows |}.

(** ** pages/HighlightView.tsx *)

(** What the effect computes from the fetched payload before it asks for the
    slice. *)
Record Projection : Type := mkProjection {
  p_rows : list Z;
  p_cols : list string;
  p_rowFrom : Js.number;
  p_rowTo : Js.number
}.

(** [first?.range?.rows], with [first = (h.evidence || [])[0]] *)
Definition first_range (h : HighlightPayload) : option Range :=
  let citations := default [] (evidence h) in
  let first := citations !! 0%nat in
  first ≫= range.

(** Lines 23 to 29 of the effect. An array is truthy even when it is empty:
    [a || b] falls through to [b] only when [a] is missing. *)
Definition project (h : HighlightPayload) : Projection :=
  let rows :=
    match first_range h ≫= range_rows with
    | Some r => r
    | None => match top_rows h with
              | Some r => r
              | None => [0]
              end
    end in
  let cols :=
    match first_range h ≫= range_cols with
    | Some c => c
    | None => match top_cols h with
              | Some c => c
              | None => []
              end
    end in
  let rowFrom := Js.Math_max [Js.Int 0; Js.sub (Js.Math_min (Js.Int <$> rows)) (Js.Int 5)] in
  let rowTo := Js.add (Js.Math_max (Js.Int <$> rows)) (Js.Int 6) in
  {| p_rows := rows; p_cols := cols; p_rowFrom := rowFrom; p_rowTo := rowTo |}.

(** The [slice] state: [{ ...s, rowFrom, highlight: { rows, cols } }]. *)
Record HighlightedSlice : Type := mkHighlightedSlice {
  hs_slice : Slice;
  rowFrom : Js.number;
  highlight : Highlight
}.

Record HighlightViewState : Type := mkHighlightViewState {
  hl : option HighlightPayload;
  slice : option HighlightedSlice;
  hv_err : option string;
  queryText : option string;
  tableName : option string
}.

Definition setHl (v : option HighlightPayload) (s : HighlightViewState) :=
  mkHighlightViewState v (slice s) (hv_err s) (queryText s) (tableName s).
Definition setSlice (v : option HighlightedSlice) (s : HighlightViewState) :=
  mkHighlightViewState (hl s) v (hv_err s) (queryText s) (tableName s).
Definition setHvErr (v : option string) (s : HighlightViewState) :=
  mkHighlightViewState (hl s) (slice s) v (queryText s) (tableName s).
Definition setTableName (v : option string) (s : HighlightViewState) :=
  mkHighlightViewState (hl s) (slice s) (hv_err s) (queryText s) v.

(** [t?.name || null] for [t = tables.find(row => row.table_id === id)] *)
Definition table_name_of (tables : list TableMeta) (id : string) : option string :=
  match List.find (fun row => bool_decide (tm_table_id row = id)) tables with
  | Some t => if Js.truthy (tm_name t) then Some (tm_name t) else None
  | None => None
  end.

Section HighlightView.

Variable backend : Backend.

(** The first effect of [HighlightView], for the route's [highlightId]. *)
Definition HighlightView_effect (highlightId : option string) : Async HighlightViewState unit :=
  match highlightId with
  | None => ret tt
  | Some id =>
    if negb (Js.truthy id) then ret tt else
    try_catch
      (h <- getHighlight backend id ;;
       set (setHl (Some h)) ;;
       let p := project h in
       s <- getSlice backend (table_id h) (p_rowFrom p) (p_rowTo p)
              (match p_cols p with [] => None | _ => Some (p_cols p) end) ;;
       set (setSlice (Some {| hs_slice := s;
                              rowFrom := p_rowFrom p;
                              highlight := mkHighlight (p_rows p) (p_cols p) |})) ;;
       try_catch
         (tables <- listTables backend ;;
          set (setTableName (table_name_of tables (table_id h))))
         (fun _ => set (setTableName None)))
      (fun e => set (setHvErr (Some (Js.error_text e))))
  end.

(** The table [HighlightView] renders once the slice is there. *)
Definition HighlightView_table (s : HighlightedSlice) : Table :=
  DataTable (columns (hs_slice s)) (rows (hs_slice s)) (Some (highlight s)) (Some (rowFrom s)).

End HighlightView.

(** ** pages/TableView.tsx *)

Record TableViewState : Type := mkTableViewState {
  tv_data : option Slice;
  tv_err : option string
}.

Section TableView.

Variable backend : Backend.

(** [getSlice(tableId, 0, 100).then(setData).catch(e => setErr(..))] *)
Definition TableView_effect (tableId : option string) : Async TableViewState unit :=
  match tableId with
  | None => ret tt
  | Some id =>
    if negb (Js.truthy id) then ret tt else
    try_catch
      (s <- getSlice backend id (Js.Int 0) (Js.Int 100) None ;;
       set (fun st => mkTableViewState (Some s) (tv_err st)))
      (fun e => set (fun st => mkTableViewState (tv_data st) (Some (Js.error_text e))))
  end.

End TableView.

(** ** pages/Upload.tsx *)

(** The state [onUpload], [refresh] and [loadPreview] read and write. *)
Record UploadState : Type := mkUploadState {
  file : option File;
  name : string;
  tables : list TableMeta;
  busy : bool;
  err : option string;
  status : option string;
  preview : option Slice;
  previewErr : option string;
  previewBusy : bool;
  activeTableId : option string;
  toast : option string
}.

Definition setFile (v : option File) (s : UploadState) :=
  mkUploadState v (name s) (tables s) (busy s) (err s) (status s) (preview s)
    (previewErr s) (previewBusy s) (activeTableId s) (toast s).
Definition setName (v : string) (s : UploadState) :=
  mkUploadState (file s) v (tables s) (busy s) (err s) (status s) (preview s)
    (previewErr s) (previewBusy s) (activeTableId s) (toast s).
Definition setTables (v : list TableMeta) (s : UploadState) :=
  mkUploadState (file s) (name s) v (busy s) (err s) (status s) (preview s)
    (previewErr s) (previewBusy s) (activeTableId s) (toast s).
Definition setBusy (v : bool) (s : UploadState) :=
  mkUploadState (file s) (name s) (tables s) v (err s) (status s) (preview s)
    (previewErr s) (previewBusy s) (activeTableId s) (toast s).
Definition setErr (v : option string) (s : UploadState) :=
  mkUploadState (file s) (name s) (tables s) (busy s) v (status s) (preview s)
    (previewErr s) (previewBusy s) (activeTableId s) (toast s).
Definition setStatus (v : option string) (s : UploadState) :=
  mkUploadState (file s) (name s) (tables s) (busy s) (err s) v (preview s)
    (previewErr s) (previewBusy s) (activeTableId s) (toast s).
Definition setPreview (v : option Slice) (s : UploadState) :=
  mkUploadState (file s) (name s) (tables s) (busy s) (err s) (status s) v
    (previewErr s) (previewBusy s) (activeTableId s) (toast s).
Definition setPreviewErr (v : option string) (s : UploadState) :=
  mkUploadState (file s) (name s) (tables s) (busy s) (err s) (status s) (preview s)
    v (previewBusy s) (activeTableId s) (toast s).
Definition setPreviewBusy (v : bool) (s : UploadState) :=
  mkUploadState (file s) (name s) (tables s) (busy s) (err s) (status s) (preview s)
    (previewErr s) v (activeTableId s) (toast s).
Definition setActiveTableId (v : option string) (s : UploadState) :=
  mkUploadState (file s) (name s) (tables s) (busy s) (err s) (status s) (preview s)
    (previewErr s) (previewBusy s) v (toast s).
Definition setToast (v : option string) (s : UploadState) :=
  mkUploadState (file s) (name s) (tables s) (busy s) (err s) (status s) (preview s)
    (previewErr s) (previewBusy s) (activeTableId s) v.

(** [job.status === "done" || job.status === "indexing"] *)
Definition is_success (job : Job) : bool :=
  bool_decide (job_status job = "done") || bool_decide (job_status job = "indexing").

(** [job.status === "error"] *)
Definition is_error (job : Job) : bool := bool_decide (job_status job = "error").

(** The status line of a poll that is neither:
    [`${msg}${job.status} (${job.progress ?? 0}%)`]. *)
Definition status_line (job : Job) : string :=
  let msg := match job_message job with
             | Some m => if Js.truthy m then m +:+ " " else ""
             | None => ""
             end in
  msg +:+ job_status job +:+ " (" +:+ pretty (default 0 (job_progress job)) +:+ "%)".

Section Upload.

Variable backend : Backend.

Definition refresh : Async UploadState unit :=
  t <- listTables backend ;;
  set (setTables t).

Definition loadPreview (tableId : string) : Async UploadState unit :=
  set (setActiveTableId (Some tableId)) ;;
  set (setPreviewBusy true) ;;
  set (setPreviewErr None) ;;
  finally
    (try_catch
       (slice <- getSlice backend tableId (Js.Int 0) (Js.Int 50) None ;;
        set (setPreview (Some slice)))
       (fun e =>
          set (setPreviewErr (Some (Js.error_text e))) ;;
          set (setPreview None)))
    (setPreviewBusy false).

(** The [while (true)] loop of [onUpload]; each unit of fuel pays for one
    iteration. *)
Fixpoint poll (fuel : nat) (jobId : string) : Async UploadState unit :=
  match fuel with
  | O => out_of_fuel
  | S fuel' =>
    job <- getJob backend jobId ;;
    if is_success job then
      set (setStatus None) ;;
      refresh ;;
      (match job_table_id job with
       | Some tid => if Js.truthy tid then loadPreview tid else ret tt
       | None => ret tt
       end) ;;
      set (setToast (Some "File uploaded successfully")) ;;
      emit (ClearToastAfter 2400) ;;
      set (setFile None) ;;
      set (setName "Uploaded Table")
    else if is_error job then
      throw (Js.new_Error (Js.or_else (job_message job) "Upload failed."))
    else
      set (setStatus (Some (status_line job))) ;;
      emit (Sleep 500) ;;
      poll fuel' jobId
  end.

Definition onUpload (fuel : nat) : Async UploadState unit :=
  st <- get ;;
  match file st with
  | None => ret tt
  | Some f =>
    set (setBusy true) ;;
    set (setErr None) ;;
    set (setStatus (Some "Uploading...")) ;;
    finally
      (try_catch
         (res <- uploadTable backend f (name st) ;;
          match job_id res with
          | Some jobId =>
            if Js.truthy jobId then poll fuel jobId
            else throw (Js.new_Error "Upload started, but no job id was returned.")
          | None => throw (Js.new_Error "Upload started, but no job id was returned.")
          end)
         (fun e => set (setErr (Some (Js.error_text e)))))
      (setBusy false)
  end.

End Upload.

(** A run of [onUpload] from a state, with an empty log. *)
Definition run_onUpload (backend : Backend) (fuel : nat) (st : UploadState)
    : Completion unit * World UploadState :=
  onUpload backend fuel (mkWorld st []).

(** A run of the effect of [HighlightView] from a state, with an empty log. *)
Definition run_HighlightView (backend : Backend) (highlightId : option string)
    (st : HighlightViewState) : Completion unit * World HighlightViewState :=
  HighlightView_effect backend highlightId (mkWorld st []).


(** ** pages/HighlightView.tsx: the scroll effect *)

(** The test of the selector [[data-row-index="${n}"]]: the row's index
    attribute reads as [n]. *)
Definition reads_as (n : Js.number) (tr : Tr) : bool :=
  bool_decide (Js.String_of_number (tr_data_row_index tr) = Js.String_of_number n).

(** The third effect: with a non-empty highlight it looks for the element
    whose [data-row-index] attribute reads as the least cited row,
    [document.querySelector(`[data-row-index="${target}"]`)], and scrolls to
    it; only the body rows of the table carry that attribute. The result is
    the row scrolled to, if any. *)
Definition scroll_target (s : option HighlightedSlice) : option Tr :=
  match s with
  | None => None
  | Some hs =>
    match hl_rows (highlight hs) with
    | [] => None
    | _ :: _ =>
      let target := Js.Math_min (Js.Int <$> hl_rows (highlight hs)) in
      List.find (reads_as target) (tbody (HighlightView_table hs))
    end
  end.

(** ** components/DataTable.tsx: cells that cannot be rendered *)

(** What [r[c] ?? ""] gives React as the child of a data cell, for a record
    [r] of text cells: the text of the record's own cell; nothing to show
    when [r[c]] is undefined (the empty string) or a method inherited from
    [Object.prototype], which React does not render; and for the column name
    [__proto__] without an own cell, the prototype object itself, which is
    not a valid child. *)
Inductive Child : Type :=
| TextChild (text : string)
| NoChild
| ObjectChild.

Definition cell_child (r : Row) (c : string) : Child :=
  match r !! c with
  | Some v => TextChild v
  | None => if bool_decide (c = "__proto__") then ObjectChild else NoChild
  end.

(** Every child of every data cell can be rendered. *)
Definition renderable (columns : list string) (rows : list Row) : bool :=
  forallb (fun r =>
    forallb (fun c => match cell_child r c with ObjectChild => false | _ => true end)
      columns) rows.

(** Rendering [DataTable]: React throws on a child that is an object, and
    otherwise renders the table. *)
Definition DataTable_render (columns : list string) (rows : list Row)
    (highlight : option Highlight) (rowOffset : option Js.number) : Completion Table :=
  if renderable columns rows
  then Return (DataTable columns rows highlight rowOffset)
  else Throw (Js.new_Error "Objects are not valid as a React child").

(** ** pages/TableView.tsx: the table name *)

(** The state of [TableView]: the slice, the error and the table's name. *)
Record TableViewPage : Type := mkTableViewPage {
  tv : TableViewState;
  tv_tableName : option string
}.

(** An asynchronous function over a part of the state, run over the whole
    state. *)
Definition zoom {S S' A : Type} (part : S' -> S) (update : S -> S' -> S')
    (m : Async S A) : Async S' A :=
  fun w =>
    match m (mkWorld (part (ui w)) (log w)) with
    | (c, w1) => (c, mkWorld (update (ui w1) (ui w)) (log w1))
    end.

Section TableViewPage.

Variable backend : Backend.

(** The first effect, over the page. *)
Definition TableView_slice_effect (tableId : option string) : Async TableViewPage unit :=
  zoom tv (fun s p => mkTableViewPage s (tv_tableName p)) (TableView_effect backend tableId).

(** The second effect:
    [listTables().then(tables => setTableName(t?.name || null))
                 .catch(() => setTableName(null))]. *)
Definition TableView_name_effect (tableId : option string) : Async TableViewPage unit :=
  match tableId with
  | None => ret tt
  | Some id =>
    if negb (Js.truthy id) then ret tt else
    try_catch
      (tables <- listTables backend ;;
       set (fun p => mkTableViewPage (tv p) (table_name_of tables id)))
      (fun _ => set (fun p => mkTableViewPage (tv p) None))
  end.

End TableViewPage.

(** ** pages/Upload.tsx: deleting, renaming and selecting *)

(** White space that [String.prototype.trim] removes, among the ASCII
    characters: space, tab, line feed, vertical tab, form feed, carriage
    return. *)
Definition is_space (a : Ascii.ascii) : bool :=
  bool_decide (a ∈ [Ascii.ascii_of_nat 32; Ascii.ascii_of_nat 9; Ascii.ascii_of_nat 10;
                    Ascii.ascii_of_nat 11; Ascii.ascii_of_nat 12; Ascii.ascii_of_nat 13]).

Fixpoint trimStart (s : string) : string :=
  match s with
  | EmptyString => EmptyString
  | String a s' => if is_space a then trimStart s' else s
  end.

Fixpoint trimEnd (s : string) : string :=
  match s with
  | EmptyString => EmptyString
  | String a s' =>
    match trimEnd s' with
    | EmptyString => if is_space a then EmptyString else String a EmptyString
    | t => String a t
    end
  end.

(** [s.trim()], for a text of ASCII characters: the white space outside
    ASCII that [trim] removes as well is not modelled. *)
Definition trim (s : string) : string := trimEnd (trimStart s).

(** The answers of the backend to the requests that change a table. *)
Record TableService : Type := mkTableService {
  on_delete : string -> Response unit;
  on_rename : string -> string -> Response unit
}.

(** A request that changes a table: DELETE /tables/{id}, or PATCH
    /tables/{id} with the body [{ name }]. *)
Inductive TableRequest : Type :=
| DeleteRequest (tableId : string)
| RenameRequest (tableId : string) (name : string).

(** The state of [Upload] with the fields of the rename form, and the
    requests of the two kinds above that the page has sent, oldest first
    (the model's record of them, as the log is for the other calls). *)
Record UploadPage : Type := mkUploadPage {
  upload_state : UploadState;
  editingId : option string;
  editingName : string;
  sent : list TableRequest
}.

Definition with_upload_state (u : UploadState) (p : UploadPage) : UploadPage :=
  mkUploadPage u (editingId p) (editingName p) (sent p).
Definition setEditingId (v : option string) (p : UploadPage) : UploadPage :=
  mkUploadPage (upload_state p) v (editingName p) (sent p).
Definition setEditingName (v : string) (p : UploadPage) : UploadPage :=
  mkUploadPage (upload_state p) (editingId p) v (sent p).
Definition send (rq : TableRequest) (p : UploadPage) : UploadPage :=
  mkUploadPage (upload_state p) (editingId p) (editingName p) (sent p ++ [rq]).

(** A setter of [Upload]'s own state, over the page. *)
Definition set_upload (f : UploadState -> UploadState) : Async UploadPage unit :=
  set (fun p => with_upload_state (f (upload_state p)) p).

(** [onSelectFile(nextFile)]: the display name follows the selected file. *)
Definition onSelectFile (nextFile : option File) (s : UploadState) : UploadState :=
  match nextFile with
  | Some f => setName (file_name f) (setFile nextFile s)
  | None => setFile nextFile s
  end.

Section UploadPage.

Variable backend : Backend.
Variable service : TableService.

Definition deleteTable (tableId : string) : Async UploadPage unit :=
  set (send (DeleteRequest tableId)) ;;
  json_or_throw (on_delete service tableId).

Definition renameTable (tableId : string) (name : string) : Async UploadPage unit :=
  set (send (RenameRequest tableId name)) ;;
  json_or_throw (on_rename service tableId name).

(** [refresh], over the page. *)
Definition refresh_page : Async UploadPage unit :=
  zoom upload_state with_upload_state (refresh backend).

Definition onDelete (tableId : string) : Async UploadPage unit :=
  p <- get ;;
  try_catch
    (deleteTable tableId ;;
     (if bool_decide (activeTableId (upload_state p) = Some tableId)
      then set_upload (setActiveTableId None) ;; set_upload (setPreview None)
      else ret tt) ;;
     refresh_page)
    (fun e => set_upload (setErr (Some (Js.error_text e)))).

Definition onRename (tableId : string) : Async UploadPage unit :=
  p <- get ;;
  let next := trim (editingName p) in
  if negb (Js.truthy next) then
    set_upload (setErr (Some "Name cannot be empty."))
  else
    try_catch
      (renameTable tableId next ;;
       set (setEditingId None) ;;
       set (setEditingName "") ;;
       refresh_page)
      (fun e => set_upload (setErr (Some (Js.error_text e)))).

End UploadPage.

(** ** App.tsx: the theme *)

Inductive Theme : Type := light | dark.

(** The string a theme is in the state, in the attribute and in the store. *)
Definition theme_name (t : Theme) : string :=
  match t with
  | light => "light"
  | dark => "dark"
  end.

(** What the theme effects touch outside the component: [localStorage] and
    the [data-theme] attribute of the document element. *)
Record Browser : Type := mkBrowser {
  localStorage : gmap string string;
  data_theme : option string
}.

(** The first effect: a stored ["light"] or ["dark"] becomes the theme; the
    result is the theme it sets, if it sets one. *)
Definition stored_theme (b : Browser) : option Theme :=
  match localStorage b !! "theme" with
  | Some stored =>
    if bool_decide (stored = "light") then Some light
    else if bool_decide (stored = "dark") then Some dark
    else None
  | None => None
  end.

(** The second effect, for the theme of the render it belongs to. *)
Definition apply_theme (t : Theme) (b : Browser) : Browser :=
  {| localStorage := <["theme" := theme_name t]> (localStorage b);
     data_theme := Some (theme_name t) |}.

(** Mounting [App]: the first render has the theme [light]; both effects run
    for it, in order; when the first one set another theme, the component
    renders again and the second effect runs for the new theme. *)
Definition mount (b : Browser) : Theme * Browser :=
  let b1 := apply_theme light b in
  match stored_theme b with
  | Some dark => (dark, apply_theme dark b1)
  | _ => (light, b1)
  end.

(** A click on the toggle: [setTheme(theme === "dark" ? "light" : "dark")],
    then the second effect for the new theme. *)
Definition toggle (s : Theme * Browser) : Theme * Browser :=
  let t := match s.1 with dark => light | light => dark end in
  (t, apply_theme t s.2).
(** * Vocabulary of the properties *)

(** [m] is the least element of [R]. *)
Definition least (m : Z) (R : list Z) : Prop := m ∈ R ∧ ∀ r, r ∈ R → m ≤ r.

(** [m] is the greatest element of [R]. *)
Definition greatest (m : Z) (R : list Z) : Prop := m ∈ R ∧ ∀ r, r ∈ R → r ≤ m.


(** ** Sample data used to evaluate the model *)

Definition initial_upload_state : UploadState :=
  {| file := Some (mkFile "sales.csv" "a,b"); name := "sales.csv"; tables := [];
     busy := false; err := None; status := None; preview := None;
     previewErr := None; previewBusy := false; activeTableId := None;
     toast := None |}.

Definition initial_highlight_state : HighlightViewState :=
  mkHighlightViewState None None None None None.

Definition processing (pct : Z) : Response Job :=
  OkJson (mkJob "processing" (Some pct) None None).

(** A backend that reports 30%, then 70%, then [done] with table [t9]. *)
Definition backend_t9 : Backend :=
  {| on_upload := fun _ _ => OkJson (mkUploadResult (Some "j1"));
     on_job := fun _ n =>
       match n with
       | 0%nat => processing 30
       | 1%nat => processing 70
       | _ => OkJson (mkJob "done" (Some 100) None (Some "t9"))
       end;
     on_tables := OkJson [mkTableMeta "t9" "sales.csv" 43 2];
     on_slice := fun _ => OkJson (mkSliceData ["amount"; "who"] (Some []));
     on_highlight := fun _ => NotOk "Not Found" |}.


(** The citation of the specification's scenario: row 42, column [amount]
    of table [t1]. *)
Definition payload_t1 : HighlightPayload :=
  mkHighlightPayload "t1"
    (Some [mkEvidence (Some (mkRange (Some [42]) (Some ["amount"])))]) None None.

(** A payload whose first evidence entry cites no row at all. *)
Definition payload_empty_rows : HighlightPayload :=
  mkHighlightPayload "t1"
    (Some [mkEvidence (Some (mkRange (Some []) (Some ["amount"])))]) None None.

(** A payload without any [rows] field. *)
Definition payload_no_rows : HighlightPayload :=
  mkHighlightPayload "t1" (Some []) None None.

(** Two evidence entries, the second with other rows and columns. *)
Definition payload_two_entries : HighlightPayload :=
  mkHighlightPayload "t1"
    (Some [mkEvidence (Some (mkRange (Some [42]) (Some ["amount"])));
           mkEvidence (Some (mkRange (Some [7; 900]) (Some ["who"])))])
    (Some [3]) (Some ["when"]).

(** A backend that serves the payload [h] and an empty slice of one column. *)
Definition backend_highlight (h : HighlightPayload) : Backend :=
  {| on_upload := fun _ _ => NotOk "no upload";
     on_job := fun _ _ => NotOk "no job";
     on_tables := OkJson [mkTableMeta "t1" "sales.csv" 43 2];
     on_slice := fun _ => OkJson (mkSliceData ["amount"] (Some []));
     on_highlight := fun _ => OkJson h |}.

(** The outcome the specification asks for on a citation without rows: an
    error is surfaced and no slice was asked for. *)
Definition rejected_before_fetch (r : Completion unit * World HighlightViewState) : Prop :=
  hv_err (ui r.2) ≠ None ∧ slice_calls (log r.2) = [].

(** A slice of six rows with one column, as a table of 43 rows returns it
    for the window that starts at row 37. *)
Definition six_rows : list Row :=
  (fun v : string => ({[ "amount" := v ]} : Row)) <$> ["10"; "11"; "12"; "13"; "14"; "15"].

(** ** Polling runs *)

(** A poll's answer that ends the polling: a job that succeeded or failed. *)
Definition is_terminal (job : Job) : bool := is_success job || is_error job.

(** The error [json_or_throw] throws on an answer, if it throws. *)
Definition fetch_error {A} (r : Response A) : option Js.Error :=
  match r with
  | Failed e => Some e
  | NotOk body => Some (Js.new_Error body)
  | OkJson _ => None
  end.

(** The answers [js] are what the backend gives to the polls number [n],
    [n + 1], ... of job [jobId], and none of them ends the polling. *)
Definition observes (backend : Backend) (jobId : string) (n : nat) (js : list Job) : Prop :=
  ∀ (i : nat) (j : Job), js !! i = Some j →
    on_job backend jobId (n + i)%nat = OkJson j ∧ is_terminal j = false.

(** The events of the iterations that saw [js]: a poll, then the pause. *)
Definition waiting (jobId : string) (js : list Job) : list Event :=
  js ≫= (fun j => [CallJob jobId (OkJson j); Sleep 500]).

(** The state after those iterations: each one sets the status line. *)
Definition waited (js : list Job) (st : UploadState) : UploadState :=
  foldl (fun s j => setStatus (Some (status_line j)) s) st js.

(** The slice request of the preview of a finished job, if it names a table. *)
Definition preview_calls (job : Job) : list SliceRequest :=
  match job_table_id job with
  | Some tid => if Js.truthy tid then [mkSliceRequest tid (Js.Int 0) (Js.Int 50) None] else []
  | None => []
  end.

(** What [catch] and [finally] of [onUpload] make of the loop's completion. *)
Definition settle (r : Completion unit * World UploadState)
    : Completion unit * World UploadState :=
  finally
    (try_catch (fun _ => r) (fun e => set (setErr (Some (Js.error_text e)))))
    (setBusy false) r.2.

(** The state of [onUpload] when the loop is entered. *)
Definition started (st : UploadState) : UploadState :=
  setStatus (Some "Uploading...") (setErr None (setBusy true st)).

(** The shape of a log with respect to the polls in it, for a run that ended
    as [c]: an answer that does not end the polling may be followed by
    anything of that shape; any other answer is the last poll of the log and
    the run is not still running. *)
Inductive poll_run (c : Completion unit) : list Event → Prop :=
| run_nil : poll_run c []
| run_other ev es :
    is_job_call ev = false → poll_run c es → poll_run c (ev :: es)
| run_wait jobId job es :
    is_terminal job = false → poll_run c es →
    poll_run c (CallJob jobId (OkJson job) :: es)
| run_last jobId r tail :
    c ≠ Running → polls tail = 0%nat → poll_run c (CallJob jobId r :: tail).

(** A backend whose first poll fails in the network; the second would have
    reported [done]. *)
Definition backend_flaky : Backend :=
  {| on_upload := fun _ _ => OkJson (mkUploadResult (Some "j1"));
     on_job := fun _ n =>
       match n with
       | 0%nat => Failed (Js.mkError "TypeError" "Failed to fetch")
       | _ => OkJson (mkJob "done" (Some 100) None (Some "t9"))
       end;
     on_tables := OkJson [mkTableMeta "t9" "sales.csv" 43 2];
     on_slice := fun _ => OkJson (mkSliceData ["amount"; "who"] (Some []));
     on_highlight := fun _ => NotOk "Not Found" |}.

(** A backend whose job fails at the second poll, with or without a
    message. *)
Definition backend_job_error (msg : option string) : Backend :=
  {| on_upload := fun _ _ => OkJson (mkUploadResult (Some "j1"));
     on_job := fun _ n =>
       match n with
       | 0%nat => processing 30
       | _ => OkJson (mkJob "error" (Some 30) msg None)
       end;
     on_tables := OkJson [];
     on_slice := fun _ => NotOk "Not Found";
     on_highlight := fun _ => NotOk "Not Found" |}.

(** A backend whose job is [done] with table [t9] at the first poll, and
    whose table list cannot be fetched. *)
Definition backend_no_tables : Backend :=
  {| on_upload := fun _ _ => OkJson (mkUploadResult (Some "j1"));
     on_job := fun _ _ => OkJson (mkJob "done" (Some 100) None (Some "t9"));
     on_tables := NotOk "Internal Server Error";
     on_slice := fun _ => OkJson (mkSliceData ["amount"; "who"] (Some []));
     on_highlight := fun _ => NotOk "Not Found" |}.

(** ** Vocabulary of the further properties *)

(** The slice request the effect of [HighlightView] sends for a payload. *)
Definition projected_request (h : HighlightPayload) : SliceRequest :=
  slice_request (table_id h) (p_rowFrom (project h)) (p_rowTo (project h))
    (match p_cols (project h) with [] => None | _ => Some (p_cols (project h)) end).

(** A backend that serves the citation of row 42 and the six rows 37 to 42
    of its table. *)
Definition backend_row_42 : Backend :=
  {| on_upload := fun _ _ => NotOk "no upload";
     on_job := fun _ _ => NotOk "no job";
     on_tables := NotOk "Internal Server Error";
     on_slice := fun _ => OkJson (mkSliceData ["amount"]
                                    (Some ((fun r => mkRawRow None r) <$> six_rows)));
     on_highlight := fun _ => OkJson payload_t1 |}.

(** A backend without the highlight asked for. *)
Definition backend_no_highlight : Backend :=
  {| on_upload := fun _ _ => NotOk "no upload";
     on_job := fun _ _ => NotOk "no job";
     on_tables := OkJson [];
     on_slice := fun _ => OkJson (mkSliceData [] None);
     on_highlight := fun _ => NotOk "Highlight not found" |}.

(** A backend that serves the payload [h] but no slice. *)
Definition backend_no_slice (h : HighlightPayload) : Backend :=
  {| on_upload := fun _ _ => NotOk "no upload";
     on_job := fun _ _ => NotOk "no job";
     on_tables := OkJson [];
     on_slice := fun _ => NotOk "Table not found";
     on_highlight := fun _ => OkJson h |}.

(** The request of the preview of a table. *)
Definition preview_request (tableId : string) : SliceRequest :=
  mkSliceRequest tableId (Js.Int 0) (Js.Int 50) None.

(** The state [loadPreview] leaves, by the answer to its request. *)
Definition previewed (backend : Backend) (tableId : string) (st : UploadState)
    : UploadState :=
  let st0 := setPreviewErr None (setPreviewBusy true (setActiveTableId (Some tableId) st)) in
  setPreviewBusy false
    match on_slice backend (preview_request tableId) with
    | OkJson d =>
      setPreview (Some {| columns := sd_columns d;
                          rows := unwrap_row <$> default [] (sd_rows d);
                          offset := Js.Int 0;
                          limit := Js.Int 50 |}) st0
    | NotOk body =>
      setPreview None (setPreviewErr (Some (Js.error_text (Js.new_Error body))) st0)
    | Failed e =>
      setPreview None (setPreviewErr (Some (Js.error_text e)) st0)
    end.

(** A backend whose job is [done] with table [t9] and whose table list
    arrives, but whose slices cannot be fetched. *)
Definition backend_no_preview : Backend :=
  {| on_upload := fun _ _ => OkJson (mkUploadResult (Some "j1"));
     on_job := fun _ _ => OkJson (mkJob "done" (Some 100) None (Some "t9"));
     on_tables := OkJson [mkTableMeta "t9" "sales.csv" 43 2];
     on_slice := fun _ => NotOk "Table not found";
     on_highlight := fun _ => NotOk "Not Found" |}.

(** A backend whose upload answers without a job id. *)
Definition backend_no_job_id : Backend :=
  {| on_upload := fun _ _ => OkJson (mkUploadResult None);
     on_job := fun _ _ => NotOk "no job";
     on_tables := OkJson [];
     on_slice := fun _ => NotOk "Not Found";
     on_highlight := fun _ => NotOk "Not Found" |}.

(** A backend whose job never leaves [processing]. *)
Definition backend_stuck : Backend :=
  {| on_upload := fun _ _ => OkJson (mkUploadResult (Some "j1"));
     on_job := fun _ _ => OkJson (mkJob "processing" (Some 10) (Some "Parsing") None);
     on_tables := OkJson [];
     on_slice := fun _ => NotOk "Not Found";
     on_highlight := fun _ => NotOk "Not Found" |}.

(** A page of [Upload] with two tables, the preview of [t1] open and the
    rename form open on [t2] with a padded name. *)
Definition page_two_tables : UploadPage :=
  {| upload_state :=
       {| file := None; name := "Uploaded Table";
          tables := [mkTableMeta "t1" "sales.csv" 43 2; mkTableMeta "t2" "costs.csv" 10 3];
          busy := false; err := Some "old error"; status := None;
          preview := Some (mkSlice ["amount"] [] (Js.Int 0) (Js.Int 50));
          previewErr := None; previewBusy := false; activeTableId := Some "t1";
          toast := None |};
     editingId := Some "t2";
     editingName := "  costs 2024 ";
     sent := [] |}.

(** The same page with only blanks in the rename form. *)
Definition page_blank_name : UploadPage := setEditingName "   " page_two_tables.

(** A backend whose table list holds the one table [t2]. *)
Definition backend_one_table : Backend :=
  {| on_upload := fun _ _ => NotOk "no upload";
     on_job := fun _ _ => NotOk "no job";
     on_tables := OkJson [mkTableMeta "t2" "costs.csv" 10 3];
     on_slice := fun _ => NotOk "Not Found";
     on_highlight := fun _ => NotOk "Not Found" |}.

(** A service that accepts every change, and one that refuses every one. *)
Definition service_ok : TableService :=
  {| on_delete := fun _ => OkJson tt; on_rename := fun _ _ => OkJson tt |}.
Definition service_refusing : TableService :=
  {| on_delete := fun _ => NotOk "Table not found";
     on_rename := fun _ _ => NotOk "Table not found" |}.

(** The page of [TableView] before its effects. *)
Definition initial_table_view : TableViewPage :=
  mkTableViewPage (mkTableViewState None None) None.

(** A session of [App]: mounted on a browser, then [n] clicks on the
    toggle. *)
Definition session (b : Browser) (n : nat) : Theme * Browser :=
  Nat.iter n toggle (mount b).

(** A browser that stored the dark theme and a setting of another page. *)
Definition browser_dark : Browser :=
  {| localStorage := {[ "theme" := "dark"; "lang" := "en" ]}; data_theme := None |}.

(** ** The citation of a payload *)

(** The rows a payload cites, read from the payload: the [rows] of the range
    of its first evidence entry when that entry, its range and the field are
    there, and the payload's own [rows] otherwise; [None] when neither is
    there. *)
Definition cited_rows (h : HighlightPayload) : option (list Z) :=
  match evidence h with
  | Some (mkEvidence (Some (mkRange (Some R) _)) :: _) => Some R
  | _ => top_rows h
  end.

(** [Number.MAX_SAFE_INTEGER]: up to it the integers are numbers, and sums
    and differences that stay below it are exact. *)
Definition max_safe_integer : Z := 2 ^ 53 - 1.

(** A payload that cites rows below zero. *)
Definition payload_negative_rows : HighlightPayload :=
  mkHighlightPayload "t1"
    (Some [mkEvidence (Some (mkRange (Some [-3; -20]) (Some ["amount"])))]) None None.


(** A text of ASCII characters. *)
Fixpoint is_ascii_text (s : string) : bool :=
  match s with
  | EmptyString => true
  | String a s' => (Ascii.nat_of_ascii a <? 128)%nat && is_ascii_text s'
  end.
(** * Properties *)

(** ** Numbers *)

Lemma Math_max_two (a b : Z) : Js.Math_max [Js.Int a; Js.Int b] = Js.Int (Z.max a b).
Proof. reflexivity. Qed.

Lemma Math_min_ints (r : Z) (rs : list Z) :
  ∃ m, Js.Math_min (Js.Int <$> r :: rs) = Js.Int m ∧ least m (r :: rs).
Proof.
  revert r. induction rs as [|r' rs IH]; intros r.
  - exists r. split; [reflexivity|]. split; [left|].
    intros x Hx. apply list_elem_of_singleton in Hx. lia.
  - destruct (IH r') as (m & Hm & Hin & Hle).
    exists (Z.min r m). split.
    + change (Js.min2 (Js.Int r) (Js.Math_min (Js.Int <$> r' :: rs)) = Js.Int (Z.min r m)).
      rewrite Hm. reflexivity.
    + split.
      * destruct (Z.min_spec r m) as [[_ ->]|[_ ->]]; [left|right; exact Hin].
      * intros x Hx. apply elem_of_cons in Hx as [->|Hx]; [lia|].
        specialize (Hle x Hx). lia.
Qed.

Lemma Math_max_ints (r : Z) (rs : list Z) :
  ∃ m, Js.Math_max (Js.Int <$> r :: rs) = Js.Int m ∧ greatest m (r :: rs).
Proof.
  revert r. induction rs as [|r' rs IH]; intros r.
  - exists r. split; [reflexivity|]. split; [left|].
    intros x Hx. apply list_elem_of_singleton in Hx. lia.
  - destruct (IH r') as (m & Hm & Hin & Hle).
    exists (Z.max r m). split.
    + change (Js.max2 (Js.Int r) (Js.Math_max (Js.Int <$> r' :: rs)) = Js.Int (Z.max r m)).
      rewrite Hm. reflexivity.
    + split.
      * destruct (Z.max_spec r m) as [[_ ->]|[_ ->]]; [right; exact Hin|left].
      * intros x Hx. apply elem_of_cons in Hx as [->|Hx]; [lia|].
        specialize (Hle x Hx). lia.
Qed.

(** ** api.ts: the slice request *)

(** C9. For every table id, every pair of integers [rowFrom], [rowTo] and
    every column list, [getSlice] sends one request, whose offset is
    [max(0, rowFrom)] and whose limit is [max(1, rowTo - rowFrom)]: the
    offset is at least 0 and the limit at least 1, also for a negative
    [rowFrom] and for [rowTo <= rowFrom]. *)
Theorem getSlice_offset_limit_clamped :
  ∀ (St : Type) (backend : Backend) (tableId : string) (rowFrom rowTo : Z)
    (cols : option (list string)) (w : World St),
  ∃ rq off lim,
    log (getSlice backend tableId (Js.Int rowFrom) (Js.Int rowTo) cols w).2
      = log w ++ [CallSlice rq]
    ∧ rq_table rq = tableId
    ∧ rq_offset rq = Js.Int off ∧ off = Z.max 0 rowFrom
    ∧ rq_limit rq = Js.Int lim ∧ lim = Z.max 1 (rowTo - rowFrom)
    ∧ 0 ≤ off ∧ 1 ≤ lim
    ∧ searchParams rq !! 0%nat = Some ("offset", pretty off)
    ∧ searchParams rq !! 1%nat = Some ("limit", pretty lim).
Proof.
  intros St backend tableId rowFrom rowTo cols w.
  exists (slice_request tableId (Js.Int rowFrom) (Js.Int rowTo) cols),
    (Z.max 0 rowFrom), (Z.max 1 (rowTo - rowFrom)).
  split.
  { unfold getSlice, bind, emit, json_or_throw. simpl.
    destruct (on_slice backend _); reflexivity. }
  repeat split; try reflexivity; lia.
Qed.

(** ** HighlightView: the fetch window *)

(** For a non-empty row list the window is finite, its upper end is above
    every cited row, and its lower end is below every cited row that is not
    negative. *)
Lemma project_window (h : HighlightPayload) :
  p_rows (project h) ≠ [] →
  ∃ mn mx,
    least mn (p_rows (project h)) ∧ greatest mx (p_rows (project h))
    ∧ p_rowFrom (project h) = Js.Int (Z.max 0 (mn - 5))
    ∧ p_rowTo (project h) = Js.Int (mx + 6)
    ∧ ∀ r, r ∈ p_rows (project h) → r < mx + 6 ∧ (0 ≤ r → Z.max 0 (mn - 5) ≤ r).
Proof.
  unfold project. cbn [p_rows p_rowFrom p_rowTo].
  generalize (match first_range h ≫= range_rows with
              | Some r => r
              | None => match top_rows h with Some r => r | None => [0] end
              end).
  intros [|r rs] Hne; [congruence|].
  destruct (Math_min_ints r rs) as (mn & Hmn & Hleast).
  destruct (Math_max_ints r rs) as (mx & Hmx & Hgreatest).
  exists mn, mx. rewrite Hmn, Hmx.
  repeat split; try apply Hleast; try apply Hgreatest.
  - apply Hgreatest in H. lia.
  - intros Hr. apply Hleast in H. lia.
Qed.

(** The projection takes the rows the payload cites. *)
Lemma project_rows_cited (h : HighlightPayload) (R : list Z) :
  cited_rows h = Some R → p_rows (project h) = R.
Proof.
  unfold cited_rows, project, first_range. cbn [p_rows].
  destruct (evidence h) as [[|[[[[rows|] cols]|]] others]|]; cbn;
    intros Hcited; rewrite ?Hcited; try congruence; reflexivity.
Qed.

(** C1, as the code has it. For every citation whose row set [R] is not
    empty and holds only row indices from 0 up to the greatest safe integer
    less 6: the projection keeps [R] as the rows to highlight, computes
    [rowFrom = max(0, min(R) - 5)] and [rowTo = max(R) + 6], asks for the
    slice of that window, and every [r] in [R] satisfies
    [rowFrom <= r < rowTo]. *)
Theorem project_window_of_citation :
  ∀ (h : HighlightPayload) (R : list Z),
    cited_rows h = Some R →
    R ≠ [] →
    (∀ r, r ∈ R → 0 ≤ r ∧ r + 6 ≤ max_safe_integer) →
    ∃ mn mx lo hi,
      least mn R ∧ greatest mx R
      ∧ p_rows (project h) = R
      ∧ p_rowFrom (project h) = Js.Int lo ∧ lo = Z.max 0 (mn - 5)
      ∧ p_rowTo (project h) = Js.Int hi ∧ hi = mx + 6
      ∧ rq_offset (projected_request h) = Js.Int lo
      ∧ rq_limit (projected_request h) = Js.Int (hi - lo)
      ∧ ∀ r, r ∈ R → lo ≤ r < hi.
Proof.
  intros h R Hcited Hne Hidx.
  assert (Hrows := project_rows_cited h R Hcited).
  assert (Hne' : p_rows (project h) ≠ []) by (rewrite Hrows; exact Hne).
  destruct (project_window h Hne') as (mn & mx & Hmn & Hmx & Hfrom & Hto & Hin).
  rewrite Hrows in Hmn, Hmx, Hin.
  assert (Hmn0 : 0 ≤ mn) by (apply Hidx, Hmn).
  assert (Hle : mn ≤ mx) by (apply Hmn, Hmx).
  exists mn, mx, (Z.max 0 (mn - 5)), (mx + 6).
  split; [exact Hmn|]. split; [exact Hmx|]. split; [exact Hrows|].
  split; [exact Hfrom|]. split; [reflexivity|]. split; [exact Hto|].
  split; [reflexivity|].
  unfold projected_request, slice_request, slice_offset, slice_limit.
  cbn [rq_offset rq_limit]. rewrite Hfrom, Hto. cbn [Js.sub Js.neg Js.add].
  rewrite !Math_max_two.
  split; [f_equal; lia|]. split; [f_equal; lia|].
  intros r Hr. destruct (Hin r Hr) as [Hhi Hlo]. split; [apply Hlo, Hidx, Hr | exact Hhi].
Qed.

Lemma project_window_of_citation_witness :
  ∃ mn mx lo hi,
    least mn [42] ∧ greatest mx [42]
    ∧ p_rows (project payload_t1) = [42]
    ∧ p_rowFrom (project payload_t1) = Js.Int lo ∧ lo = Z.max 0 (mn - 5)
    ∧ p_rowTo (project payload_t1) = Js.Int hi ∧ hi = mx + 6
    ∧ rq_offset (projected_request payload_t1) = Js.Int lo
    ∧ rq_limit (projected_request payload_t1) = Js.Int (hi - lo)
    ∧ ∀ r, r ∈ [42] → lo ≤ r < hi.
Proof.
  apply (project_window_of_citation payload_t1 [42]).
  - reflexivity.
  - discriminate.
  - intros r Hr. apply list_elem_of_singleton in Hr. subst r.
    unfold max_safe_integer. lia.
Defined.

(** C1, as stated, fails. The payload cites the rows -3 and -20: the row set
    is not empty, the window is [0, 3), and neither row lies in it, the
    lower end being clamped at 0. *)
Lemma project_negative_rows_outside_window :
  cited_rows payload_negative_rows = Some [-3; -20]
  ∧ p_rows (project payload_negative_rows) = [-3; -20]
  ∧ p_rowFrom (project payload_negative_rows) = Js.Int 0
  ∧ p_rowTo (project payload_negative_rows) = Js.Int 3
  ∧ ¬ (∀ r, r ∈ [-3; -20] → 0 ≤ r < 3).
Proof.
  repeat split; try (vm_compute; reflexivity).
  intros Hall. assert (H3 : 0 ≤ -3 < 3) by (apply Hall; left). lia.
Qed.

(** Rows [42] give the window [37, 48). *)
Example project_t1 :
  project payload_t1 = mkProjection [42] ["amount"] (Js.Int 37) (Js.Int 48).
Proof. vm_compute. reflexivity. Qed.

(** The request the effect sends for it: eleven rows from row 37, one
    column. *)
Example request_t1 :
  searchParams (slice_request "t1" (Js.Int 37) (Js.Int 48) (Some ["amount"]))
  = [("offset", "37"); ("limit", "11"); ("cols", "amount")].
Proof. vm_compute. reflexivity. Qed.

(** C10. For every payload with at least one evidence entry, the projected
    rows, columns and window are those of the payload that keeps only the
    first entry: the later entries are ignored. The rows are the first
    entry's range rows when that field is there; when it is missing they are
    the top-level [rows], and when that is missing too, the constant [[0]]. *)
Theorem project_first_entry_only :
  ∀ (tid : string) (e : Evidence) (others : list Evidence)
    (rows : option (list Z)) (cols : option (list string)),
    project (mkHighlightPayload tid (Some (e :: others)) rows cols)
      = project (mkHighlightPayload tid (Some [e]) rows cols)
    ∧ p_rows (project (mkHighlightPayload tid (Some (e :: others)) rows cols))
      = match range e ≫= range_rows with
        | Some r => r
        | None => match rows with
                  | Some r => r
                  | None => [0]
                  end
        end
    ∧ p_cols (project (mkHighlightPayload tid (Some (e :: others)) rows cols))
      = match range e ≫= range_cols with
        | Some c => c
        | None => match cols with
                  | Some c => c
                  | None => []
                  end
        end.
Proof.
  intros tid e others rows cols. repeat split.
Qed.

Example project_two_entries :
  project payload_two_entries = project payload_t1.
Proof. reflexivity. Qed.

(** What the effect does once the payload is there: one slice request for
    the projected window, then, when the slice arrived, the table list. *)
Lemma HighlightView_effect_run (backend : Backend) (id : string)
    (h : HighlightPayload) (w : World HighlightViewState) :
  Js.truthy id = true →
  on_highlight backend id = OkJson h →
  let p := project h in
  let rq := slice_request (table_id h) (p_rowFrom p) (p_rowTo p)
              (match p_cols p with [] => None | _ => Some (p_cols p) end) in
  let asked := (log w ++ [CallHighlight id]) ++ [CallSlice rq] in
  HighlightView_effect backend (Some id) w =
    match on_slice backend rq with
    | OkJson d =>
      let s := {| columns := sd_columns d;
                  rows := unwrap_row <$> default [] (sd_rows d);
                  offset := rq_offset rq;
                  limit := rq_limit rq |} in
      let shown := setSlice (Some (mkHighlightedSlice s (p_rowFrom p)
                                     (mkHighlight (p_rows p) (p_cols p))))
                     (setHl (Some h) (ui w)) in
      (Return tt,
       mkWorld (setTableName
                  (match on_tables backend with
                   | OkJson ts => table_name_of ts (table_id h)
                   | _ => None
                   end) shown)
               (asked ++ [CallTables]))
    | NotOk body =>
      (Return tt,
       mkWorld (setHvErr (Some (Js.error_text (Js.new_Error body))) (setHl (Some h) (ui w)))
               asked)
    | Failed e =>
      (Return tt,
       mkWorld (setHvErr (Some (Js.error_text e)) (setHl (Some h) (ui w))) asked)
    end.
Proof.
  intros Hid Hh p rq asked.
  unfold HighlightView_effect. rewrite Hid. cbn [negb].
  unfold try_catch, bind, getHighlight, getSlice, listTables, emit, set, ret, throw,
    json_or_throw.
  rewrite Hh. cbn -[project slice_request app].
  fold p. fold rq.
  destruct (on_slice backend rq) as [e|body|d]; cbn -[project slice_request app];
    try reflexivity.
  destruct (on_tables backend); reflexivity.
Qed.

(** C2, as the code has it. For every payload that carries no [rows] field,
    neither in the range of its first evidence entry nor at its top level,
    the effect does not fail on the citation: the rows are the default [[0]],
    the window is [0, 6), and exactly one slice request is sent, with offset
    0 and limit 6; when the backend answers that request no error is shown. *)
Theorem project_missing_rows_defaults :
  ∀ (backend : Backend) (id : string) (h : HighlightPayload) (st : HighlightViewState),
    Js.truthy id = true →
    on_highlight backend id = OkJson h →
    first_range h ≫= range_rows = None →
    top_rows h = None →
    let r := run_HighlightView backend (Some id) st in
    let rq := slice_request (table_id h) (Js.Int 0) (Js.Int 6)
                (match p_cols (project h) with [] => None | _ => Some (p_cols (project h)) end) in
    p_rows (project h) = [0]
    ∧ p_rowFrom (project h) = Js.Int 0
    ∧ p_rowTo (project h) = Js.Int 6
    ∧ rq_offset rq = Js.Int 0 ∧ rq_limit rq = Js.Int 6
    ∧ slice_calls (log r.2) = [rq]
    ∧ r.1 = Return tt
    ∧ (∀ d, on_slice backend rq = OkJson d → hv_err (ui r.2) = hv_err st).
Proof.
  intros backend id h st Hid Hh Hfirst Htop r rq.
  assert (Hp : project h = mkProjection [0] (p_cols (project h)) (Js.Int 0) (Js.Int 6)).
  { unfold project. rewrite Hfirst, Htop. reflexivity. }
  assert (Hrows : p_rows (project h) = [0]) by (rewrite Hp; reflexivity).
  assert (Hfrom : p_rowFrom (project h) = Js.Int 0) by (rewrite Hp; reflexivity).
  assert (Hto : p_rowTo (project h) = Js.Int 6) by (rewrite Hp; reflexivity).
  assert (Hrun := HighlightView_effect_run backend id h (mkWorld st []) Hid Hh).
  cbv zeta in Hrun. rewrite Hfrom, Hto in Hrun. fold rq in Hrun.
  fold (run_HighlightView backend (Some id) st) in Hrun. fold r in Hrun.
  repeat split; try assumption.
  - rewrite Hrun. destruct (on_slice backend rq); reflexivity.
  - rewrite Hrun. destruct (on_slice backend rq); reflexivity.
  - intros d Hd. rewrite Hrun, Hd. reflexivity.
Qed.

Lemma project_missing_rows_defaults_witness :
  let r := run_HighlightView (backend_highlight payload_no_rows) (Some "h1")
             initial_highlight_state in
  let rq := mkSliceRequest "t1" (Js.Int 0) (Js.Int 6) None in
  p_rows (project payload_no_rows) = [0]
  ∧ p_rowFrom (project payload_no_rows) = Js.Int 0
  ∧ p_rowTo (project payload_no_rows) = Js.Int 6
  ∧ rq_offset rq = Js.Int 0 ∧ rq_limit rq = Js.Int 6
  ∧ slice_calls (log r.2) = [rq]
  ∧ r.1 = Return tt
  ∧ (∀ d, on_slice (backend_highlight payload_no_rows) rq = OkJson d →
          hv_err (ui r.2) = hv_err initial_highlight_state).
Proof.
  apply (project_missing_rows_defaults (backend_highlight payload_no_rows) "h1"
           payload_no_rows initial_highlight_state); reflexivity.
Defined.

(** C2, as stated, fails. A payload whose first evidence entry lists no row
    is not rejected: the effect returns, shows no error and has sent a slice
    request (for the offset [Infinity] and the limit 1). A payload without
    any [rows] field is not rejected either: the rows default to [[0]] and
    the slice [0, 6) is requested. *)
Lemma project_empty_rows_not_rejected :
  let r := run_HighlightView (backend_highlight payload_empty_rows) (Some "h1")
             initial_highlight_state in
  let r' := run_HighlightView (backend_highlight payload_no_rows) (Some "h1")
              initial_highlight_state in
  p_rows (project payload_empty_rows) = []
  ∧ r.1 = Return tt
  ∧ hv_err (ui r.2) = None
  ∧ slice_calls (log r.2) = [mkSliceRequest "t1" Js.Infinity (Js.Int 1) (Some "amount")]
  ∧ ¬ rejected_before_fetch r
  ∧ top_rows payload_no_rows = None
  ∧ p_rows (project payload_no_rows) = [0]
  ∧ hv_err (ui r'.2) = None
  ∧ slice_calls (log r'.2) = [mkSliceRequest "t1" (Js.Int 0) (Js.Int 6) None]
  ∧ ¬ rejected_before_fetch r'.
Proof.
  cbv zeta. repeat split; try reflexivity.
  - intros [Herr _]. apply Herr. reflexivity.
  - intros [Herr _]. apply Herr. reflexivity.
Qed.

(** ** DataTable: which cells are highlighted *)

(** The local offset [i] is in the set of highlighted offsets exactly when
    the absolute row [i + rowOffset] is cited. *)
Lemma hlRows_absolute (hl : Highlight) (off : Z) (i : nat) :
  Js.Int (Z.of_nat i) ∈ hlRows (Some hl) (Js.Int off) ↔ Z.of_nat i + off ∈ hl_rows hl.
Proof.
  unfold hlRows. rewrite elem_of_list_to_set, list_elem_of_fmap. cbn. split.
  - intros (r & Heq & Hr). injection Heq as Heq.
    replace (Z.of_nat i + off) with r by lia. exact Hr.
  - intros Hr. exists (Z.of_nat i + off). split; [f_equal; lia | exact Hr].
Qed.

Lemma hlCols_cited (hl : Highlight) (c : string) :
  c ∈ hlCols (Some hl) ↔ c ∈ hl_cols hl.
Proof. unfold hlCols. rewrite elem_of_list_to_set. reflexivity. Qed.

Lemma index_class_hl (b : bool) : "mono " +:+ (if b then "hl" else "") = "mono hl" ↔ b = true.
Proof. destruct b; cbn; split; intros H; try reflexivity; discriminate H. Qed.

Lemma cell_class_hl (b : bool) : (if b then "hl" else "") = "hl" ↔ b = true.
Proof. destruct b; cbn; split; intros H; try reflexivity; discriminate H. Qed.

(** The body row that [DataTable] renders at position [i]. *)
Lemma DataTable_row (columns : list string) (rows : list Row)
    (highlight : option Highlight) (off : Js.number) (i : nat) (tr : Tr) :
  tbody (DataTable columns rows highlight (Some off)) !! i = Some tr →
  ∃ r, rows !! i = Some r
    ∧ tr_key tr = i
    ∧ tr_data_row_index tr = Js.add (Js.Int (Z.of_nat i)) off
    ∧ tr_index_className tr
      = "mono " +:+ (if bool_decide (Js.Int (Z.of_nat i) ∈ hlRows highlight off)
                     then "hl" else "")
    ∧ tr_cells tr
      = (fun c =>
           {| td_key := c;
              td_className :=
                if bool_decide (Js.Int (Z.of_nat i) ∈ hlRows highlight off)
                   && bool_decide (c ∈ hlCols highlight)
                then "hl" else "";
              td_text := default "" (r !! c) |}) <$> columns.
Proof.
  unfold DataTable. cbn [tbody default]. rewrite list_lookup_imap.
  destruct (rows !! i) as [r|]; cbn; [|discriminate].
  intros [= <-]. exists r. repeat split.
Qed.

(** Over an integer offset the row at position [i] carries the absolute
    index [i + off]. *)
Lemma DataTable_row_index (columns : list string) (rows : list Row)
    (highlight : option Highlight) (off : Z) (i : nat) (tr : Tr) :
  tbody (DataTable columns rows highlight (Some (Js.Int off))) !! i = Some tr →
  tr_data_row_index tr = Js.Int (Z.of_nat i + off).
Proof.
  intros Htr.
  destruct (DataTable_row _ _ _ _ _ _ Htr) as (row & _ & _ & Hidx & _).
  exact Hidx.
Qed.

(** C3. In the table rendered for a slice with highlight rows [R], highlight
    columns [C] and row offset [rowFrom], the row at position [i] is the
    absolute row [r = i + rowFrom]; its index cell is highlighted iff [r] is
    in [R], whatever the columns; it has one cell per column, and the cell of
    column [c] is highlighted iff [r] is in [R] and [c] is in [C]. With [C]
    empty no cell is highlighted, and the row highlight is as before. *)
Theorem DataTable_highlight_iff :
  ∀ (columns : list string) (rows : list Row) (R : list Z) (C : list string)
    (rowFrom : Z) (i : nat) (tr : Tr),
    tbody (DataTable columns rows (Some (mkHighlight R C)) (Some (Js.Int rowFrom))) !! i
      = Some tr →
    let r := Z.of_nat i + rowFrom in
    tr_data_row_index tr = Js.Int r
    ∧ (tr_index_className tr = "mono hl" ↔ r ∈ R)
    ∧ td_key <$> tr_cells tr = columns
    ∧ (∀ td, td ∈ tr_cells tr → (td_className td = "hl" ↔ r ∈ R ∧ td_key td ∈ C))
    ∧ (C = [] → (∀ td, td ∈ tr_cells tr → td_className td ≠ "hl")
                ∧ (tr_index_className tr = "mono hl" ↔ r ∈ R)).
Proof.
  intros columns rows R C rowFrom i tr Htr r.
  destruct (DataTable_row _ _ _ _ _ _ Htr) as (row & _ & _ & Hidx & Hcls & Hcells).
  assert (Hrow : tr_index_className tr = "mono hl" ↔ r ∈ R).
  { rewrite Hcls, index_class_hl, bool_decide_eq_true.
    apply (hlRows_absolute (mkHighlight R C)). }
  assert (Hcell : ∀ td, td ∈ tr_cells tr →
                        (td_className td = "hl" ↔ r ∈ R ∧ td_key td ∈ C)).
  { intros td Htd. rewrite Hcells in Htd.
    apply list_elem_of_fmap in Htd as (c & -> & _). cbn [td_className td_key].
    rewrite cell_class_hl, andb_true_iff, !bool_decide_eq_true.
    rewrite (hlRows_absolute (mkHighlight R C)), (hlCols_cited (mkHighlight R C)).
    reflexivity. }
  split; [exact Hidx|]. split; [exact Hrow|]. split.
  { rewrite Hcells, <- list_fmap_compose. apply list_fmap_id. }
  split; [exact Hcell|].
  intros ->. split; [|exact Hrow].
  intros td Htd Hhl. apply (Hcell td Htd) in Hhl as [_ Hin].
  apply elem_of_nil in Hin. exact Hin.
Qed.

Lemma DataTable_highlight_iff_witness :
  ∃ tr,
    tbody (DataTable ["amount"] six_rows (Some (mkHighlight [42] ["amount"]))
             (Some (Js.Int 37))) !! 5%nat = Some tr
    ∧ tr_data_row_index tr = Js.Int 42
    ∧ (tr_index_className tr = "mono hl" ↔ 42 ∈ [42])
    ∧ td_key <$> tr_cells tr = ["amount"]
    ∧ (∀ td, td ∈ tr_cells tr → (td_className td = "hl" ↔ 42 ∈ [42] ∧ td_key td ∈ ["amount"]))
    ∧ (["amount"] = [] → (∀ td, td ∈ tr_cells tr → td_className td ≠ "hl")
                ∧ (tr_index_className tr = "mono hl" ↔ 42 ∈ [42])).
Proof.
  eexists. split; [reflexivity|].
  apply (DataTable_highlight_iff ["amount"] six_rows [42] ["amount"] 37 5%nat).
  reflexivity.
Defined.




(** Without the column [__proto__] the same short slice renders its six
    rows, row 42 highlighted and nothing shown for the cited row 45. *)
Example DataTable_render_six_rows :
  ∃ t, DataTable_render ["amount"] six_rows (Some (mkHighlight [42; 45] ["amount"]))
         (Some (Js.Int 37)) = Return t
       ∧ (fun tr => (tr_data_row_index tr, tr_index_className tr)) <$> tbody t
         = [(Js.Int 37, "mono "); (Js.Int 38, "mono "); (Js.Int 39, "mono ");
            (Js.Int 40, "mono "); (Js.Int 41, "mono "); (Js.Int 42, "mono hl")].
Proof. eexists. split; vm_compute; reflexivity. Qed.

(** Row 42 of a table of 43 rows, fetched from row 37: six rows are
    rendered, the last one highlighted in its index cell and in the cited
    column. *)
Example DataTable_row_42 :
  (fun tr => (tr_data_row_index tr, tr_index_className tr, td_className <$> tr_cells tr))
    <$> tbody (DataTable ["amount"] six_rows (Some (mkHighlight [42] ["amount"]))
                 (Some (Js.Int 37)))
  = [(Js.Int 37, "mono ", [""]); (Js.Int 38, "mono ", [""]); (Js.Int 39, "mono ", [""]);
     (Js.Int 40, "mono ", [""]); (Js.Int 41, "mono ", [""]); (Js.Int 42, "mono hl", ["hl"])].
Proof. vm_compute. reflexivity. Qed.

(** ** Upload: the polling loop *)

Lemma polls_app (l l' : list Event) : polls (l ++ l') = (polls l + polls l')%nat.
Proof. unfold polls. rewrite filter_app, length_app. reflexivity. Qed.

Lemma polls_one (jobId : string) (r : Response Job) : polls [CallJob jobId r] = 1%nat.
Proof. reflexivity. Qed.

Lemma polls_waiting (jobId : string) (js : list Job) :
  polls (waiting jobId js) = length js.
Proof.
  induction js as [|j js IH]; [reflexivity|].
  change (waiting jobId (j :: js))
    with ([CallJob jobId (OkJson j); Sleep 500] ++ waiting jobId js).
  rewrite polls_app, IH. reflexivity.
Qed.

Lemma slice_calls_app (l l' : list Event) :
  slice_calls (l ++ l') = slice_calls l ++ slice_calls l'.
Proof. unfold slice_calls. apply omap_app. Qed.

Lemma table_calls_app (l l' : list Event) :
  table_calls (l ++ l') = (table_calls l + table_calls l')%nat.
Proof. unfold table_calls. rewrite filter_app, length_app. reflexivity. Qed.

Lemma slice_calls_waiting (jobId : string) (js : list Job) :
  slice_calls (waiting jobId js) = [].
Proof. induction js as [|j js IH]; [reflexivity|]. exact IH. Qed.

Lemma table_calls_waiting (jobId : string) (js : list Job) :
  table_calls (waiting jobId js) = 0%nat.
Proof. induction js as [|j js IH]; [reflexivity|]. exact IH. Qed.

Lemma slice_calls_requests (l : list SliceRequest) : slice_calls (CallSlice <$> l) = l.
Proof. induction l as [|rq l IH]; [reflexivity|]. cbn. f_equal. exact IH. Qed.

Lemma table_calls_requests (l : list SliceRequest) : table_calls (CallSlice <$> l) = 0%nat.
Proof. induction l as [|rq l IH]; [reflexivity|]. exact IH. Qed.

Lemma polls_requests (l : list SliceRequest) : polls (CallSlice <$> l) = 0%nat.
Proof. induction l as [|rq l IH]; [reflexivity|]. exact IH. Qed.

Lemma or_else_truthy (o : option string) (d : string) :
  Js.truthy d = true → Js.truthy (Js.or_else o d) = true.
Proof.
  intros Hd. destruct o as [s|]; cbn; [|exact Hd].
  destruct (Js.truthy s) eqn:Hs; [exact Hs | exact Hd].
Qed.

Lemma truthy_nonempty (s : string) : Js.truthy s = true ↔ s ≠ "".
Proof.
  unfold Js.truthy. rewrite negb_true_iff, bool_decide_eq_false. reflexivity.
Qed.

Ltac async :=
  cbv beta delta [bind ret throw out_of_fuel try_catch finally set get emit
    json_or_throw getJob listTables uploadTable getSlice refresh loadPreview].

Section PollingLoop.

Variable backend : Backend.
Variable jobId : string.

(** One iteration that sees an answer that does not end the polling. *)
Lemma poll_step_waiting (fuel : nat) (w : World UploadState) (j : Job) :
  on_job backend jobId (polls (log w)) = OkJson j →
  is_terminal j = false →
  poll backend (S fuel) jobId w
  = poll backend fuel jobId
      (mkWorld (setStatus (Some (status_line j)) (ui w))
               (log w ++ [CallJob jobId (OkJson j); Sleep 500])).
Proof.
  intros Hjob Hterm. apply orb_false_elim in Hterm as [Hs He].
  cbn [poll]. unfold bind at 1. unfold getJob. rewrite Hjob.
  unfold bind at 1. cbn [emit json_or_throw ret]. rewrite Hs, He.
  async. cbn [ui log]. rewrite <- app_assoc. reflexivity.
Qed.

(** The iterations that see [js] leave the loop where it was, [length js]
    units of fuel later. *)
Lemma poll_waits (js : list Job) :
  ∀ (fuel : nat) (w : World UploadState),
    observes backend jobId (polls (log w)) js →
    poll backend (length js + fuel) jobId w
    = poll backend fuel jobId
        (mkWorld (waited js (ui w)) (log w ++ waiting jobId js)).
Proof.
  induction js as [|j js IH]; intros fuel w Hobs.
  - cbn. rewrite app_nil_r. destruct w; reflexivity.
  - destruct (Hobs 0%nat j eq_refl) as [Hjob Hterm].
    rewrite Nat.add_0_r in Hjob.
    cbn [length Nat.add]. rewrite (poll_step_waiting _ _ j Hjob Hterm).
    rewrite IH.
    + cbn [ui log]. rewrite <- app_assoc. reflexivity.
    + intros i j' Hi. cbn [log]. rewrite polls_app.
      change (polls [CallJob jobId (OkJson j); Sleep 500]) with 1%nat.
      replace (polls (log w) + 1 + i)%nat with (polls (log w) + S i)%nat by lia.
      apply (Hobs (S i) j' Hi).
Qed.

(** One iteration whose status fetch fails: the error is thrown and the loop
    is left. *)
Lemma poll_step_fetch_error (fuel : nat) (w : World UploadState) (e : Js.Error) :
  fetch_error (on_job backend jobId (polls (log w))) = Some e →
  poll backend (S fuel) jobId w
  = (Throw e,
     mkWorld (ui w) (log w ++ [CallJob jobId (on_job backend jobId (polls (log w)))])).
Proof.
  intros He. cbn [poll]. unfold bind at 1. unfold getJob.
  destruct (on_job backend jobId (polls (log w))) as [e'|body|job];
    cbn in He; try discriminate He; injection He as <-; reflexivity.
Qed.

(** One iteration that sees a job in error. *)
Lemma poll_step_error (fuel : nat) (w : World UploadState) (job : Job) :
  on_job backend jobId (polls (log w)) = OkJson job →
  is_success job = false →
  is_error job = true →
  poll backend (S fuel) jobId w
  = (Throw (Js.new_Error (Js.or_else (job_message job) "Upload failed.")),
     mkWorld (ui w) (log w ++ [CallJob jobId (OkJson job)])).
Proof.
  intros Hjob Hs He. cbn [poll]. unfold bind at 1. unfold getJob. rewrite Hjob.
  unfold bind at 1. cbn [emit json_or_throw ret]. rewrite Hs, He. reflexivity.
Qed.

(** One iteration that sees a finished job while the table list cannot be
    fetched: [refresh] throws, and neither the preview nor the toast
    follows. *)
Lemma poll_step_success_stale (fuel : nat) (w : World UploadState) (job : Job)
    (e : Js.Error) :
  on_job backend jobId (polls (log w)) = OkJson job →
  is_success job = true →
  fetch_error (on_tables backend) = Some e →
  poll backend (S fuel) jobId w
  = (Throw e,
     mkWorld (setStatus None (ui w)) (log w ++ [CallJob jobId (OkJson job); CallTables])).
Proof.
  intros Hjob Hs He. cbn [poll]. unfold bind at 1. unfold getJob. rewrite Hjob.
  unfold bind at 1. cbn [emit json_or_throw ret]. rewrite Hs.
  async. cbn [ui log].
  destruct (on_tables backend) as [e'|body|ts];
    cbn in He; try discriminate He; injection He as <-;
    rewrite <- app_assoc; reflexivity.
Qed.

(** One iteration that sees a finished job and gets the table list: the list
    is stored, the preview of the job's table is asked for if the job names
    one, and the form is reset. *)
Lemma poll_step_success_refreshed (fuel : nat) (w : World UploadState) (job : Job)
    (ts : list TableMeta) :
  on_job backend jobId (polls (log w)) = OkJson job →
  is_success job = true →
  on_tables backend = OkJson ts →
  ∃ st',
    poll backend (S fuel) jobId w
    = (Return tt,
       mkWorld st' (log w ++ [CallJob jobId (OkJson job); CallTables]
                      ++ (CallSlice <$> preview_calls job)
                      ++ [ClearToastAfter 2400]))
    ∧ tables st' = ts
    ∧ err st' = err (ui w)
    ∧ busy st' = busy (ui w)
    ∧ status st' = None
    ∧ file st' = None
    ∧ name st' = "Uploaded Table"
    ∧ toast st' = Some "File uploaded successfully".
Proof.
  intros Hjob Hs Ht. cbn [poll]. unfold bind at 1. unfold getJob. rewrite Hjob.
  unfold bind at 1. cbn [emit json_or_throw ret]. rewrite Hs.
  unfold preview_calls.
  destruct (job_table_id job) as [tid|]; [destruct (Js.truthy tid)|].
  - async. rewrite Ht. cbn -[app].
    destruct (on_slice backend _); cbn -[app];
      (eexists; split; [rewrite <- !app_assoc; reflexivity | repeat split]).
  - async. rewrite Ht. cbn -[app].
    eexists; split; [rewrite <- !app_assoc; reflexivity | repeat split].
  - async. rewrite Ht. cbn -[app].
    eexists; split; [rewrite <- !app_assoc; reflexivity | repeat split].
Qed.

End PollingLoop.

(** ** Upload: a run of [onUpload] *)

Lemma settle_throw (e : Js.Error) (w : World UploadState) :
  settle (Throw e, w)
  = (Return tt, mkWorld (setBusy false (setErr (Some (Js.error_text e)) (ui w))) (log w)).
Proof. reflexivity. Qed.

Lemma settle_return (w : World UploadState) :
  settle (Return tt, w) = (Return tt, mkWorld (setBusy false (ui w)) (log w)).
Proof. reflexivity. Qed.

Lemma settle_log (r : Completion unit * World UploadState) :
  log (settle r).2 = log r.2.
Proof. destruct r as [[[]|e|] w]; reflexivity. Qed.

Lemma settle_running (r : Completion unit * World UploadState) :
  (settle r).1 = Running ↔ r.1 = Running.
Proof. destruct r as [[[]|e|] w]; cbn; split; congruence. Qed.

Lemma waited_err (js : list Job) (s : UploadState) : err (waited js s) = err s.
Proof.
  revert s. induction js as [|j js IH]; intros s; [reflexivity|].
  change (err (waited js (setStatus (Some (status_line j)) s)) = err s).
  rewrite IH. reflexivity.
Qed.

Section UploadRun.

Variable backend : Backend.
Variables (st : UploadState) (f : File) (jobId : string) (js : list Job).

Hypothesis Hfile : file st = Some f.
Hypothesis Hupload : on_upload backend f (name st) = OkJson (mkUploadResult (Some jobId)).
Hypothesis HjobId : jobId ≠ "".
Hypothesis Hobserves : observes backend jobId 0 js.

(** With a file and a job id, the run is the loop, then [catch] and
    [finally]. *)
Lemma onUpload_started (fuel : nat) :
  run_onUpload backend fuel st
  = settle (poll backend fuel jobId (mkWorld (started st) [CallUpload f (name st)])).
Proof using Hfile Hupload HjobId.
  apply truthy_nonempty in HjobId.
  unfold run_onUpload, onUpload, settle. async. cbn [ui log].
  rewrite Hfile. cbn [ui log app]. rewrite Hupload. cbn [job_id].
  rewrite HjobId. fold (started st).
  destruct (poll backend fuel jobId _) as [[[]|e|] w]; reflexivity.
Qed.

(** After the polls that saw [js] the loop goes on from the log that holds
    them. *)
Lemma onUpload_waited (fuel : nat) :
  run_onUpload backend (length js + fuel) st
  = settle (poll backend fuel jobId
              (mkWorld (waited js (started st)) (CallUpload f (name st) :: waiting jobId js))).
Proof using Hfile Hupload HjobId Hobserves.
  rewrite onUpload_started. rewrite poll_waits; [reflexivity|]. exact Hobserves.
Qed.

Lemma polls_waited_log :
  polls (CallUpload f (name st) :: waiting jobId js) = length js.
Proof. change (polls (waiting jobId js) = length js). apply polls_waiting. Qed.

End UploadRun.

(** ** Upload: what a run surfaces *)

(** C7. For every run whose polling sees a job with status [error]: the run
    ends, and the error shown is the job's message when the job carries a
    non-empty one, and the non-empty default ["Upload failed."] when it
    carries none; the poll that saw the error is the last event of the run. *)
Theorem onUpload_job_error_message :
  ∀ (backend : Backend) (st : UploadState) (f : File) (jobId : string)
    (js : list Job) (job : Job) (fuel : nat),
    file st = Some f →
    on_upload backend f (name st) = OkJson (mkUploadResult (Some jobId)) →
    jobId ≠ "" →
    observes backend jobId 0 js →
    on_job backend jobId (length js) = OkJson job →
    job_status job = "error" →
    (length js < fuel)%nat →
    let r := run_onUpload backend fuel st in
    r.1 = Return tt
    ∧ (∀ m, job_message job = Some m → m ≠ "" → err (ui r.2) = Some m)
    ∧ (job_message job = None ∨ job_message job = Some "" →
         err (ui r.2) = Some "Upload failed.")
    ∧ (∃ m, err (ui r.2) = Some m ∧ m ≠ "")
    ∧ log r.2 = CallUpload f (name st) :: waiting jobId js ++ [CallJob jobId (OkJson job)]
    ∧ polls (log r.2) = S (length js).
Proof.
  intros backend st f jobId js job fuel Hfile Hupload Hid Hobs Hjob Hstatus Hfuel r.
  assert (Hs : is_success job = false).
  { unfold is_success. rewrite Hstatus. reflexivity. }
  assert (He : is_error job = true).
  { unfold is_error. rewrite Hstatus. reflexivity. }
  assert (Hmsg : Js.error_text (Js.new_Error (Js.or_else (job_message job) "Upload failed."))
                 = Js.or_else (job_message job) "Upload failed.").
  { unfold Js.error_text. cbn [Js.message Js.new_Error].
    rewrite or_else_truthy; reflexivity. }
  assert (Hrun : r = (Return tt,
            mkWorld (setBusy false
                       (setErr (Some (Js.or_else (job_message job) "Upload failed."))
                          (waited js (started st))))
                    ((CallUpload f (name st) :: waiting jobId js)
                       ++ [CallJob jobId (OkJson job)]))).
  { subst r. replace fuel with (length js + S (fuel - S (length js)))%nat by lia.
    rewrite (onUpload_waited backend st f jobId js Hfile Hupload Hid Hobs).
    rewrite (poll_step_error backend jobId _ _ job); try assumption.
    - rewrite settle_throw, Hmsg. reflexivity.
    - cbn [log]. rewrite polls_waited_log. exact Hjob. }
  rewrite Hrun. cbn [fst snd ui log err setBusy setErr].
  split; [reflexivity|]. split.
  { intros m Hm Hne. rewrite Hm. cbn. apply truthy_nonempty in Hne. rewrite Hne. reflexivity. }
  split.
  { intros [Hm|Hm]; rewrite Hm; reflexivity. }
  split.
  { eexists. split; [reflexivity|]. apply truthy_nonempty, or_else_truthy. reflexivity. }
  split; [reflexivity|].
  rewrite polls_app, polls_waited_log, polls_one. lia.
Qed.

Lemma onUpload_job_error_message_witness :
  let r := run_onUpload (backend_job_error (Some "bad header row")) 5 initial_upload_state in
  let job := mkJob "error" (Some 30) (Some "bad header row") None in
  let seen := [mkJob "processing" (Some 30) None None] in
  r.1 = Return tt
  ∧ (∀ m, job_message job = Some m → m ≠ "" → err (ui r.2) = Some m)
  ∧ (job_message job = None ∨ job_message job = Some "" →
       err (ui r.2) = Some "Upload failed.")
  ∧ (∃ m, err (ui r.2) = Some m ∧ m ≠ "")
  ∧ log r.2 = CallUpload (mkFile "sales.csv" "a,b") "sales.csv"
                :: waiting "j1" seen ++ [CallJob "j1" (OkJson job)]
  ∧ polls (log r.2) = 2%nat.
Proof.
  apply (onUpload_job_error_message (backend_job_error (Some "bad header row"))
           initial_upload_state (mkFile "sales.csv" "a,b") "j1"
           [mkJob "processing" (Some 30) None None]
           (mkJob "error" (Some 30) (Some "bad header row") None) 5).
  - reflexivity.
  - reflexivity.
  - discriminate.
  - intros [|[|i]] j Hj; cbn in Hj; try discriminate Hj.
    injection Hj as <-. split; reflexivity.
  - reflexivity.
  - reflexivity.
  - cbn. lia.
Defined.

(** The two scenarios: the message of the job is shown as it is, and a job
    without message shows the default. *)
Example onUpload_bad_header_row :
  err (ui (run_onUpload (backend_job_error (Some "bad header row")) 5
             initial_upload_state).2) = Some "bad header row"
  ∧ err (ui (run_onUpload (backend_job_error None) 5 initial_upload_state).2)
    = Some "Upload failed.".
Proof. split; reflexivity. Qed.

(** C5, as the code has it. For every run in which a status fetch fails
    (the fetch rejects or the answer is not ok) after any number of polls that
    did not end the polling: the run ends there. The failed fetch is the last
    event of the log, so no poll follows it however much fuel is left, and
    the error's text is what the user is shown. *)
Theorem onUpload_fetch_error_not_retried :
  ∀ (backend : Backend) (st : UploadState) (f : File) (jobId : string)
    (js : list Job) (e : Js.Error) (fuel : nat),
    file st = Some f →
    on_upload backend f (name st) = OkJson (mkUploadResult (Some jobId)) →
    jobId ≠ "" →
    observes backend jobId 0 js →
    fetch_error (on_job backend jobId (length js)) = Some e →
    (length js < fuel)%nat →
    let r := run_onUpload backend fuel st in
    r.1 = Return tt
    ∧ err (ui r.2) = Some (Js.error_text e)
    ∧ busy (ui r.2) = false
    ∧ log r.2 = CallUpload f (name st) :: waiting jobId js
                  ++ [CallJob jobId (on_job backend jobId (length js))]
    ∧ polls (log r.2) = S (length js).
Proof.
  intros backend st f jobId js e fuel Hfile Hupload Hid Hobs He Hfuel r.
  assert (Hrun : r = (Return tt,
            mkWorld (setBusy false (setErr (Some (Js.error_text e)) (waited js (started st))))
                    ((CallUpload f (name st) :: waiting jobId js)
                       ++ [CallJob jobId (on_job backend jobId (length js))]))).
  { subst r. replace fuel with (length js + S (fuel - S (length js)))%nat by lia.
    rewrite (onUpload_waited backend st f jobId js Hfile Hupload Hid Hobs).
    rewrite (poll_step_fetch_error _ _ _ _ e).
    - rewrite settle_throw. cbn [ui log]. rewrite polls_waited_log. reflexivity.
    - cbn [log]. rewrite polls_waited_log. exact He. }
  rewrite Hrun. cbn [fst snd ui log err busy setBusy setErr].
  repeat split.
  rewrite polls_app, polls_waited_log, polls_one. lia.
Qed.

Lemma onUpload_fetch_error_not_retried_witness :
  let r := run_onUpload backend_flaky 10 initial_upload_state in
  r.1 = Return tt
  ∧ err (ui r.2) = Some (Js.error_text (Js.mkError "TypeError" "Failed to fetch"))
  ∧ busy (ui r.2) = false
  ∧ log r.2 = CallUpload (mkFile "sales.csv" "a,b") "sales.csv" :: waiting "j1" []
                ++ [CallJob "j1" (on_job backend_flaky "j1" (length (@nil Job)))]
  ∧ polls (log r.2) = 1%nat.
Proof.
  apply (onUpload_fetch_error_not_retried backend_flaky initial_upload_state
           (mkFile "sales.csv" "a,b") "j1" [] (Js.mkError "TypeError" "Failed to fetch") 10).
  - reflexivity.
  - reflexivity.
  - discriminate.
  - intros i j Hj. discriminate Hj.
  - reflexivity.
  - cbn. lia.
Defined.

(** C5, as stated, fails. The first status fetch fails in the network; the
    run polls once, never again, although nine iterations of fuel are left
    and the second poll would have reported [done]; the error is shown at
    once. *)
Lemma onUpload_transient_error_surfaced_at_once :
  let r := run_onUpload backend_flaky 10 initial_upload_state in
  on_job backend_flaky "j1" 0 = Failed (Js.mkError "TypeError" "Failed to fetch")
  ∧ on_job backend_flaky "j1" 1 = OkJson (mkJob "done" (Some 100) None (Some "t9"))
  ∧ r.1 = Return tt
  ∧ log r.2 = [CallUpload (mkFile "sales.csv" "a,b") "sales.csv";
               CallJob "j1" (Failed (Js.mkError "TypeError" "Failed to fetch"))]
  ∧ polls (log r.2) = 1%nat
  ∧ err (ui r.2) = Some "Failed to fetch".
Proof. cbv zeta. repeat split. Qed.

Lemma waited_tables (js : list Job) (s : UploadState) : tables (waited js s) = tables s.
Proof.
  revert s. induction js as [|j js IH]; intros s; [reflexivity|].
  change (tables (waited js (setStatus (Some (status_line j)) s)) = tables s).
  rewrite IH. reflexivity.
Qed.

(** C8, as the code has it. For every run whose polling sees a job with
    status [done] or [indexing]: the run ends, that poll was the last one,
    and the table list was fetched exactly once. When the list arrived, it
    is stored, no error is shown, the form is reset, and the slice requests
    of the run are exactly one, for the job's table with offset 0, limit 50
    and no column filter, when the job carries a table id that is not empty,
    and none when the id is missing or empty. When the list did not arrive,
    no slice is requested, the failure is the error shown and the stored
    list is the old one. *)
Theorem onUpload_success_refresh_preview :
  ∀ (backend : Backend) (st : UploadState) (f : File) (jobId : string)
    (js : list Job) (job : Job) (fuel : nat),
    file st = Some f →
    on_upload backend f (name st) = OkJson (mkUploadResult (Some jobId)) →
    jobId ≠ "" →
    observes backend jobId 0 js →
    on_job backend jobId (length js) = OkJson job →
    is_success job = true →
    (length js < fuel)%nat →
    let r := run_onUpload backend fuel st in
    r.1 = Return tt
    ∧ table_calls (log r.2) = 1%nat
    ∧ polls (log r.2) = S (length js)
    ∧ match on_tables backend with
      | OkJson ts =>
        err (ui r.2) = None
        ∧ tables (ui r.2) = ts
        ∧ file (ui r.2) = None
        ∧ name (ui r.2) = "Uploaded Table"
        ∧ slice_calls (log r.2)
          = match job_table_id job with
            | Some tid =>
              if bool_decide (tid = "") then []
              else [slice_request tid (Js.Int 0) (Js.Int 50) None]
            | None => []
            end
      | NotOk body =>
        err (ui r.2) = Some (Js.error_text (Js.new_Error body))
        ∧ tables (ui r.2) = tables st
        ∧ slice_calls (log r.2) = []
      | Failed e =>
        err (ui r.2) = Some (Js.error_text e)
        ∧ tables (ui r.2) = tables st
        ∧ slice_calls (log r.2) = []
      end
    ∧ ∀ tid, searchParams (slice_request tid (Js.Int 0) (Js.Int 50) None)
             = [("offset", "0"); ("limit", "50")].
Proof.
  intros backend st f jobId js job fuel Hfile Hupload Hid Hobs Hjob Hs Hfuel r.
  set (w := mkWorld (waited js (started st)) (CallUpload f (name st) :: waiting jobId js)).
  assert (Hjob' : on_job backend jobId (polls (log w)) = OkJson job).
  { unfold w. cbn [log]. rewrite polls_waited_log. exact Hjob. }
  assert (Hrun : r = settle (poll backend (S (fuel - S (length js))) jobId w)).
  { subst r. replace fuel with (length js + S (fuel - S (length js)))%nat at 1 by lia.
    apply (onUpload_waited backend st f jobId js Hfile Hupload Hid Hobs). }
  assert (Hlist : ∀ tail : list Event,
             table_calls tail = 0%nat → polls tail = 0%nat →
             table_calls (log w ++ [CallJob jobId (OkJson job); CallTables] ++ tail) = 1%nat
             ∧ polls (log w ++ [CallJob jobId (OkJson job); CallTables] ++ tail)
               = S (length js)).
  { intros tail Ht Hp. unfold w. cbn [log].
    change (CallUpload f (name st) :: waiting jobId js)
      with ([CallUpload f (name st)] ++ waiting jobId js).
    rewrite !table_calls_app, !polls_app, table_calls_waiting, polls_waiting, Ht, Hp.
    change (table_calls [CallUpload f (name st)]) with 0%nat.
    change (table_calls [CallJob jobId (OkJson job); CallTables]) with 1%nat.
    change (polls [CallUpload f (name st)]) with 0%nat.
    change (polls [CallJob jobId (OkJson job); CallTables]) with 1%nat.
    split; lia. }
  assert (Hwaiting : slice_calls (log w) = []).
  { unfold w. cbn [log].
    change (CallUpload f (name st) :: waiting jobId js)
      with ([CallUpload f (name st)] ++ waiting jobId js).
    rewrite slice_calls_app, slice_calls_waiting. reflexivity. }
  assert (Hstale : ∀ e, fetch_error (on_tables backend) = Some e →
             r.1 = Return tt
             ∧ table_calls (log r.2) = 1%nat
             ∧ polls (log r.2) = S (length js)
             ∧ err (ui r.2) = Some (Js.error_text e)
             ∧ tables (ui r.2) = tables st
             ∧ slice_calls (log r.2) = []).
  { intros e He. rewrite Hrun.
    rewrite (poll_step_success_stale backend jobId _ w job e Hjob' Hs He), settle_throw.
    cbn [fst snd ui log].
    destruct (Hlist [] eq_refl eq_refl) as [Htc Hpc]. rewrite app_nil_r in Htc, Hpc.
    split; [reflexivity|]. split; [exact Htc|]. split; [exact Hpc|].
    split; [reflexivity|]. split.
    - unfold w. cbn [ui]. change (tables (waited js (started st)) = tables (started st)).
      apply waited_tables.
    - rewrite slice_calls_app, Hwaiting. reflexivity. }
  assert (Hparams : ∀ tid, searchParams (slice_request tid (Js.Int 0) (Js.Int 50) None)
                           = [("offset", "0"); ("limit", "50")]) by (intros tid; reflexivity).
  destruct (on_tables backend) as [e|body|ts] eqn:Ht.
  - destruct (Hstale e eq_refl) as (H1 & H2 & H3 & H4 & H5 & H6). repeat split; assumption.
  - destruct (Hstale (Js.new_Error body) eq_refl) as (H1 & H2 & H3 & H4 & H5 & H6).
    repeat split; assumption.
  - clear Hstale.
    destruct (poll_step_success_refreshed backend jobId (fuel - S (length js)) w job ts
                Hjob' Hs Ht)
      as (st' & Hpoll & Htables & Herr & _ & _ & Hf & Hn & _).
    rewrite Hrun, Hpoll, settle_return. cbn [fst snd ui log].
    destruct (Hlist ((CallSlice <$> preview_calls job) ++ [ClearToastAfter 2400]))
      as [Htc Hpc].
    { rewrite table_calls_app, table_calls_requests. reflexivity. }
    { rewrite polls_app, polls_requests. reflexivity. }
    split; [reflexivity|]. split; [exact Htc|]. split; [exact Hpc|]. split; [|exact Hparams].
    split. { cbn. rewrite Herr. unfold w. cbn [ui]. rewrite waited_err. reflexivity. }
    split; [exact Htables|]. split; [exact Hf|]. split; [exact Hn|].
    rewrite !slice_calls_app, Hwaiting, slice_calls_requests.
    change (slice_calls [CallJob jobId (OkJson job); CallTables]) with (@nil SliceRequest).
    change (slice_calls [ClearToastAfter 2400]) with (@nil SliceRequest).
    cbn [app]. rewrite app_nil_r. unfold preview_calls, Js.truthy.
    destruct (job_table_id job) as [tid|]; [|reflexivity].
    destruct (bool_decide (tid = "")); reflexivity.
Qed.

Lemma onUpload_success_refresh_preview_witness :
  let r := run_onUpload backend_t9 10 initial_upload_state in
  let job := mkJob "done" (Some 100) None (Some "t9") in
  r.1 = Return tt
  ∧ table_calls (log r.2) = 1%nat
  ∧ polls (log r.2) = 3%nat
  ∧ match on_tables backend_t9 with
    | OkJson ts =>
      err (ui r.2) = None
      ∧ tables (ui r.2) = ts
      ∧ file (ui r.2) = None
      ∧ name (ui r.2) = "Uploaded Table"
      ∧ slice_calls (log r.2)
        = match job_table_id job with
          | Some tid =>
            if bool_decide (tid = "") then []
            else [slice_request tid (Js.Int 0) (Js.Int 50) None]
          | None => []
          end
    | NotOk body =>
      err (ui r.2) = Some (Js.error_text (Js.new_Error body))
      ∧ tables (ui r.2) = tables initial_upload_state
      ∧ slice_calls (log r.2) = []
    | Failed e =>
      err (ui r.2) = Some (Js.error_text e)
      ∧ tables (ui r.2) = tables initial_upload_state
      ∧ slice_calls (log r.2) = []
    end
  ∧ ∀ tid, searchParams (slice_request tid (Js.Int 0) (Js.Int 50) None)
           = [("offset", "0"); ("limit", "50")].
Proof.
  apply (onUpload_success_refresh_preview backend_t9 initial_upload_state
           (mkFile "sales.csv" "a,b") "j1"
           [mkJob "processing" (Some 30) None None; mkJob "processing" (Some 70) None None]
           (mkJob "done" (Some 100) None (Some "t9")) 10).
  - reflexivity.
  - reflexivity.
  - discriminate.
  - intros [|[|[|i]]] j Hj; cbn in Hj; try discriminate Hj;
      injection Hj as <-; split; reflexivity.
  - reflexivity.
  - reflexivity.
  - cbn. lia.
Defined.

(** The scenario: 30%, 70%, then [done] with table [t9]; the run asks for
    rows [0, 50) of [t9], once. *)
Example onUpload_t9 :
  slice_calls (log (run_onUpload backend_t9 10 initial_upload_state).2)
  = [mkSliceRequest "t9" (Js.Int 0) (Js.Int 50) None].
Proof. reflexivity. Qed.

(** C8, as stated, fails. The job is [done] and carries the table id [t9],
    but the table list cannot be fetched: [refresh] throws, the run shows
    that error and asks for no preview slice. *)
Lemma onUpload_refresh_failure_skips_preview :
  let r := run_onUpload backend_no_tables 10 initial_upload_state in
  let job := mkJob "done" (Some 100) None (Some "t9") in
  on_job backend_no_tables "j1" 0 = OkJson job
  ∧ is_success job = true
  ∧ job_table_id job = Some "t9"
  ∧ r.1 = Return tt
  ∧ log r.2 = [CallUpload (mkFile "sales.csv" "a,b") "sales.csv";
               CallJob "j1" (OkJson job); CallTables]
  ∧ slice_calls (log r.2) = []
  ∧ err (ui r.2) = Some "Internal Server Error".
Proof. cbv zeta. repeat split. Qed.

(** ** Upload: polling stops at a terminal observation *)

Lemma poll_run_weaken (c c' : Completion unit) (es : list Event) :
  (c ≠ Running → c' ≠ Running) → poll_run c es → poll_run c' es.
Proof.
  intros Hc Hrun. induction Hrun as [|ev es Hev _ IH|jobId job es Hjob _ IH|jobId r tail Hend Htail].
  - apply run_nil.
  - apply run_other; assumption.
  - apply run_wait; assumption.
  - apply run_last; [apply Hc, Hend | exact Htail].
Qed.

(** In a log of that shape nothing is polled after an answer that ends the
    polling, and the run that produced it is over. *)
Lemma poll_run_terminal_last (c : Completion unit) (es : list Event) :
  poll_run c es →
  ∀ (before : list Event) (jobId : string) (job : Job) (after : list Event),
    es = before ++ CallJob jobId (OkJson job) :: after →
    is_terminal job = true →
    polls after = 0%nat ∧ c ≠ Running.
Proof.
  intros Hrun.
  induction Hrun as [|ev es Hev _ IH|jid j es Hj _ IH|jid r tail Hend Htail];
    intros before jobId job after Hes Hterm.
  - destruct before; discriminate Hes.
  - destruct before as [|ev' before]; cbn in Hes.
    + injection Hes as -> _. discriminate Hev.
    + injection Hes as _ ->. eapply IH; [reflexivity | exact Hterm].
  - destruct before as [|ev' before]; cbn in Hes.
    + injection Hes as _ -> _. congruence.
    + injection Hes as _ ->. eapply IH; [reflexivity | exact Hterm].
  - destruct before as [|ev' before]; cbn in Hes.
    + injection Hes as _ _ ->. split; assumption.
    + injection Hes as _ ->. rewrite polls_app in Htail.
      change (polls (CallJob jobId (OkJson job) :: after)) with (S (polls after)) in Htail.
      lia.
Qed.

(** What the loop appends to the log has that shape. *)
Lemma poll_emits (backend : Backend) (jobId : string) (fuel : nat) :
  ∀ w : World UploadState,
    ∃ es, log (poll backend fuel jobId w).2 = log w ++ es
          ∧ poll_run (poll backend fuel jobId w).1 es.
Proof.
  induction fuel as [|fuel IH]; intros w.
  - exists []. split; [symmetry; apply app_nil_r | apply run_nil].
  - destruct (on_job backend jobId (polls (log w))) as [e|body|job] eqn:Hjob.
    + rewrite (poll_step_fetch_error backend jobId fuel w e) by (rewrite Hjob; reflexivity).
      eexists. split; [reflexivity|]. apply run_last; [discriminate | reflexivity].
    + rewrite (poll_step_fetch_error backend jobId fuel w (Js.new_Error body))
        by (rewrite Hjob; reflexivity).
      eexists. split; [reflexivity|]. apply run_last; [discriminate | reflexivity].
    + destruct (is_success job) eqn:Hs; [|destruct (is_error job) eqn:He].
      * destruct (on_tables backend) as [e|body|ts] eqn:Ht.
        -- rewrite (poll_step_success_stale backend jobId fuel w job e Hjob Hs)
             by (rewrite Ht; reflexivity).
           eexists. split; [reflexivity|]. apply run_last; [discriminate | reflexivity].
        -- rewrite (poll_step_success_stale backend jobId fuel w job (Js.new_Error body) Hjob Hs)
             by (rewrite Ht; reflexivity).
           eexists. split; [reflexivity|]. apply run_last; [discriminate | reflexivity].
        -- destruct (poll_step_success_refreshed backend jobId fuel w job ts Hjob Hs Ht)
             as (st' & -> & _).
           eexists. split; [reflexivity|]. apply run_last; [discriminate|].
           change (polls ([CallTables] ++ (CallSlice <$> preview_calls job)
                            ++ [ClearToastAfter 2400]) = 0%nat).
           rewrite !polls_app, polls_requests. reflexivity.
      * rewrite (poll_step_error backend jobId fuel w job Hjob Hs He).
        eexists. split; [reflexivity|]. apply run_last; [discriminate | reflexivity].
      * assert (Hterm : is_terminal job = false) by (unfold is_terminal; rewrite Hs, He; reflexivity).
        rewrite (poll_step_waiting backend jobId fuel w job Hjob Hterm).
        destruct (IH (mkWorld (setStatus (Some (status_line job)) (ui w))
                        (log w ++ [CallJob jobId (OkJson job); Sleep 500])))
          as (es & Hlog & Hrun).
        exists (CallJob jobId (OkJson job) :: Sleep 500 :: es). split.
        -- rewrite Hlog. cbn [log]. rewrite <- app_assoc. reflexivity.
        -- apply run_wait; [exact Hterm|]. apply run_other; [reflexivity | exact Hrun].
Qed.

(** A run of [onUpload] does nothing without a file, settles the error of
    an upload that gave no job id, or settles the polling loop. *)
Lemma onUpload_cases (backend : Backend) (fuel : nat) (st : UploadState) :
  run_onUpload backend fuel st = (Return tt, mkWorld st [])
  ∨ (∃ f e, run_onUpload backend fuel st
            = settle (Throw e, mkWorld (started st) [CallUpload f (name st)]))
  ∨ (∃ f jobId, run_onUpload backend fuel st
                = settle (poll backend fuel jobId
                            (mkWorld (started st) [CallUpload f (name st)]))).
Proof.
  destruct (file st) as [f|] eqn:Hfile.
  2: { left. unfold run_onUpload, onUpload. async. cbn [ui]. rewrite Hfile. reflexivity. }
  right.
  destruct (on_upload backend f (name st)) as [e|body|[[jobId|]]] eqn:Hupload.
  1, 2, 4: left; exists f; eexists; unfold run_onUpload, onUpload; async; cbn [ui log];
    rewrite Hfile; cbn [ui log app]; rewrite Hupload; reflexivity.
  destruct (Js.truthy jobId) eqn:Hid.
  - right. exists f, jobId. apply truthy_nonempty in Hid.
    apply (onUpload_started backend st f jobId Hfile Hupload Hid).
  - left. exists f. eexists. unfold run_onUpload, onUpload. async. cbn [ui log].
    rewrite Hfile. cbn [ui log app]. rewrite Hupload. cbn [job_id]. rewrite Hid.
    reflexivity.
Qed.

(** [onUpload] catches whatever is thrown: it returns, unless the model ran
    out of fuel. *)
Lemma onUpload_completion (backend : Backend) (fuel : nat) (st : UploadState) :
  (run_onUpload backend fuel st).1 = Return tt
  ∨ (run_onUpload backend fuel st).1 = Running.
Proof.
  destruct (onUpload_cases backend fuel st) as [-> | [(f & e & ->) | (f & jobId & ->)]].
  - left. reflexivity.
  - left. reflexivity.
  - destruct (poll backend fuel jobId _) as [[[]|e|] w]; [left | left | right]; reflexivity.
Qed.

(** The log of every run of [onUpload] has that shape. *)
Lemma onUpload_poll_run (backend : Backend) (fuel : nat) (st : UploadState) :
  poll_run (run_onUpload backend fuel st).1 (log (run_onUpload backend fuel st).2).
Proof.
  destruct (onUpload_cases backend fuel st) as [-> | [(f & e & ->) | (f & jobId & ->)]].
  - apply run_nil.
  - apply run_other; [reflexivity | apply run_nil].
  - rewrite settle_log.
    destruct (poll_emits backend jobId fuel (mkWorld (started st) [CallUpload f (name st)]))
      as (es & -> & Hrun).
    cbn [log app]. apply run_other; [reflexivity|].
    apply (poll_run_weaken _ _ _ (fun H => proj2 (not_iff_compat (settle_running _)) H) Hrun).
Qed.

(** C4. In every run of [onUpload], whatever the backend answers and however
    long the run is followed: once a poll has observed a job that is [done]
    or [indexing] (success) or in [error] (failure), no status fetch follows
    it in the log, and the run is over, not waiting for another poll. *)
Theorem onUpload_no_poll_after_terminal :
  ∀ (backend : Backend) (fuel : nat) (st : UploadState)
    (before : list Event) (jobId : string) (job : Job) (after : list Event),
    log (run_onUpload backend fuel st).2 = before ++ CallJob jobId (OkJson job) :: after →
    is_success job = true ∨ is_error job = true →
    polls after = 0%nat
    ∧ (∀ ev, ev ∈ after → is_job_call ev = false)
    ∧ (run_onUpload backend fuel st).1 = Return tt.
Proof.
  intros backend fuel st before jobId job after Hlog Hterm.
  assert (Hterm' : is_terminal job = true).
  { unfold is_terminal. destruct Hterm as [-> | ->]; [reflexivity | apply orb_true_r]. }
  destruct (poll_run_terminal_last _ _ (onUpload_poll_run backend fuel st)
              before jobId job after Hlog Hterm') as [Hpolls Hover].
  split; [exact Hpolls|]. split.
  - intros ev Hev. destruct (is_job_call ev) eqn:Hcall; [|reflexivity].
    exfalso. unfold polls in Hpolls. apply length_zero_iff_nil in Hpolls.
    assert (Hin : ev ∈ filter is_job_call after).
    { apply list_elem_of_filter. split; [rewrite Hcall; exact I | exact Hev]. }
    rewrite Hpolls in Hin. apply elem_of_nil in Hin. exact Hin.
  - destruct (onUpload_completion backend fuel st) as [Hc | Hc]; [exact Hc|].
    contradiction.
Qed.

Lemma onUpload_no_poll_after_terminal_witness :
  let after := [CallTables;
                CallSlice (mkSliceRequest "t9" (Js.Int 0) (Js.Int 50) None);
                ClearToastAfter 2400] in
  polls after = 0%nat
  ∧ (∀ ev, ev ∈ after → is_job_call ev = false)
  ∧ (run_onUpload backend_t9 10 initial_upload_state).1 = Return tt.
Proof.
  apply (onUpload_no_poll_after_terminal backend_t9 10 initial_upload_state
           [CallUpload (mkFile "sales.csv" "a,b") "sales.csv";
            CallJob "j1" (processing 30); Sleep 500;
            CallJob "j1" (processing 70); Sleep 500]
           "j1" (mkJob "done" (Some 100) None (Some "t9"))).
  - reflexivity.
  - left. reflexivity.
Defined.

(** * Further properties *)

(** ** The projected window and the request for it *)

(** X1. For a citation with a non-empty list of row indices, none negative,
    the clamps of [getSlice] change nothing: the request's offset is the
    window's [rowFrom], offset plus limit is its [rowTo], the limit is at
    least 6, and every cited row lies in [offset, offset + limit). *)
Theorem project_request_is_window :
  ∀ (h : HighlightPayload) (cols : option (list string)),
    p_rows (project h) ≠ [] →
    (∀ r, r ∈ p_rows (project h) → 0 ≤ r) →
    let rq := slice_request (table_id h) (p_rowFrom (project h)) (p_rowTo (project h)) cols in
    ∃ off lim,
      rq_offset rq = Js.Int off ∧ rq_limit rq = Js.Int lim
      ∧ p_rowFrom (project h) = Js.Int off
      ∧ p_rowTo (project h) = Js.Int (off + lim)
      ∧ 6 ≤ lim
      ∧ ∀ r, r ∈ p_rows (project h) → off ≤ r < off + lim.
Proof.
  intros h cols Hne Hidx rq.
  destruct (project_window h Hne) as (mn & mx & Hmn & Hmx & Hfrom & Hto & Hin).
  assert (Hmn0 : 0 ≤ mn) by (apply Hidx, Hmn).
  assert (Hle : mn ≤ mx) by (apply Hmn, Hmx).
  exists (Z.max 0 (mn - 5)), (mx + 6 - Z.max 0 (mn - 5)).
  subst rq. unfold slice_request, slice_offset, slice_limit. cbn [rq_offset rq_limit].
  rewrite Hfrom, Hto. cbn [Js.sub Js.neg Js.add]. rewrite !Math_max_two.
  split; [f_equal; lia|]. split; [f_equal; lia|].
  split; [reflexivity|]. split; [f_equal; lia|]. split; [lia|].
  intros r Hr. destruct (Hin r Hr) as [Hhi Hlo]. specialize (Hlo (Hidx r Hr)). lia.
Qed.

Lemma project_request_is_window_witness :
  let rq := slice_request "t1" (Js.Int 37) (Js.Int 48) (Some ["amount"]) in
  ∃ off lim,
    rq_offset rq = Js.Int off ∧ rq_limit rq = Js.Int lim
    ∧ p_rowFrom (project payload_t1) = Js.Int off
    ∧ p_rowTo (project payload_t1) = Js.Int (off + lim)
    ∧ 6 ≤ lim
    ∧ ∀ r, r ∈ p_rows (project payload_t1) → off ≤ r < off + lim.
Proof.
  apply (project_request_is_window payload_t1 (Some ["amount"])).
  - discriminate.
  - intros r Hr. apply list_elem_of_singleton in Hr. subst r. lia.
Defined.

(** X2. For a payload whose selected row list is the empty array, the window
    is not finite: [rowFrom] is [Infinity], [rowTo] is [-Infinity], and the
    request that follows asks for one row at the offset [Infinity]. *)
Theorem project_empty_rows_window :
  ∀ (h : HighlightPayload) (cols : option (list string)),
    p_rows (project h) = [] →
    let rq := slice_request (table_id h) (p_rowFrom (project h)) (p_rowTo (project h)) cols in
    p_rowFrom (project h) = Js.Infinity
    ∧ p_rowTo (project h) = Js.NegInfinity
    ∧ rq_offset rq = Js.Infinity
    ∧ rq_limit rq = Js.Int 1
    ∧ searchParams rq !! 0%nat = Some ("offset", "Infinity")
    ∧ searchParams rq !! 1%nat = Some ("limit", "1").
Proof.
  intros h cols Hrows rq. subst rq. revert Hrows.
  unfold project. cbn [p_rows p_rowFrom p_rowTo].
  intros ->. repeat split.
Qed.

Lemma project_empty_rows_window_witness :
  let rq := slice_request "t1" (p_rowFrom (project payload_empty_rows))
              (p_rowTo (project payload_empty_rows)) (Some ["amount"]) in
  p_rowFrom (project payload_empty_rows) = Js.Infinity
  ∧ p_rowTo (project payload_empty_rows) = Js.NegInfinity
  ∧ rq_offset rq = Js.Infinity
  ∧ rq_limit rq = Js.Int 1
  ∧ searchParams rq !! 0%nat = Some ("offset", "Infinity")
  ∧ searchParams rq !! 1%nat = Some ("limit", "1").
Proof.
  apply (project_empty_rows_window payload_empty_rows (Some ["amount"])).
  reflexivity.
Defined.


(** ** HighlightView: from the payload to the rendered rows *)

(** In a table over an integer offset, the first row whose index attribute
    reads as [k + off] is the row at position [k], if there is one. *)
Lemma find_by_index (rows : list Row) :
  ∀ (f : nat → Row → Tr) (off : Z) (k : nat),
    (∀ i r, tr_data_row_index (f i r) = Js.Int (Z.of_nat i + off)) →
    List.find (reads_as (Js.Int (Z.of_nat k + off))) (imap f rows) = imap f rows !! k.
Proof.
  induction rows as [|x rows IH]; intros f off k Hf; [reflexivity|].
  cbn [imap List.find]. unfold reads_as at 1. rewrite Hf. cbn [Js.String_of_number].
  destruct k as [|k].
  - rewrite bool_decide_eq_true_2 by reflexivity. reflexivity.
  - rewrite bool_decide_eq_false_2.
    2: { intros Heq. apply (inj pretty) in Heq. lia. }
    cbn [lookup list_lookup].
    replace (Z.of_nat (S k) + off) with (Z.of_nat k + (off + 1)) by lia.
    apply IH. intros i r. unfold compose. rewrite Hf. f_equal. lia.
Qed.

Lemma least_unique (m m' : Z) (R : list Z) : least m R → least m' R → m = m'.
Proof. intros [Hin Hle] [Hin' Hle']. specialize (Hle m' Hin'). specialize (Hle' m Hin). lia. Qed.

(** The state after the effect, when payload and slice arrived. *)
Lemma HighlightView_slice_shown (backend : Backend) (id : string)
    (h : HighlightPayload) (d : SliceData) (st : HighlightViewState) :
  Js.truthy id = true →
  on_highlight backend id = OkJson h →
  on_slice backend (projected_request h) = OkJson d →
  slice (ui (run_HighlightView backend (Some id) st).2)
  = Some (mkHighlightedSlice
            {| columns := sd_columns d;
               rows := unwrap_row <$> default [] (sd_rows d);
               offset := rq_offset (projected_request h);
               limit := rq_limit (projected_request h) |}
            (p_rowFrom (project h))
            (mkHighlight (p_rows (project h)) (p_cols (project h)))).
Proof.
  intros Hid Hh Hd. unfold run_HighlightView.
  rewrite (HighlightView_effect_run backend id h _ Hid Hh). cbv zeta.
  fold (projected_request h). rewrite Hd. reflexivity.
Qed.

(** X3. When the payload and the slice arrive, for a citation with a
    non-empty list of row indices, none negative: the table shown has one
    body row per returned row; the row at position [i] is the absolute row
    [i + rowFrom], and its index cell is highlighted exactly when that row is
    cited; no cited row lies before the first row of the window. *)
Theorem HighlightView_renders_cited_rows :
  ∀ (backend : Backend) (id : string) (h : HighlightPayload) (d : SliceData)
    (st : HighlightViewState),
    Js.truthy id = true →
    on_highlight backend id = OkJson h →
    on_slice backend (projected_request h) = OkJson d →
    p_rows (project h) ≠ [] →
    (∀ r, r ∈ p_rows (project h) → 0 ≤ r) →
    ∃ hs off,
      slice (ui (run_HighlightView backend (Some id) st).2) = Some hs
      ∧ p_rowFrom (project h) = Js.Int off
      ∧ length (tbody (HighlightView_table hs)) = length (default [] (sd_rows d))
      ∧ (∀ (i : nat) tr, tbody (HighlightView_table hs) !! i = Some tr →
           tr_data_row_index tr = Js.Int (Z.of_nat i + off)
           ∧ (tr_index_className tr = "mono hl" ↔ Z.of_nat i + off ∈ p_rows (project h)))
      ∧ (∀ r, r ∈ p_rows (project h) → off ≤ r).
Proof.
  intros backend id h d st Hid Hh Hd Hne Hidx.
  destruct (project_window h Hne) as (mn & mx & Hmn & Hmx & Hfrom & Hto & Hin).
  eexists. exists (Z.max 0 (mn - 5)).
  split; [apply (HighlightView_slice_shown backend id h d st Hid Hh Hd)|].
  split; [exact Hfrom|]. unfold HighlightView_table.
  cbn [hs_slice rowFrom highlight columns rows]. rewrite Hfrom. split; [|split].
  - unfold DataTable. cbn [tbody]. rewrite length_imap, length_fmap. reflexivity.
  - intros i tr Htr.
    destruct (DataTable_row _ _ _ _ _ _ Htr) as (row & _ & _ & Hi & Hcls & _).
    split; [exact Hi|].
    rewrite Hcls, index_class_hl, bool_decide_eq_true.
    apply (hlRows_absolute (mkHighlight (p_rows (project h)) (p_cols (project h)))).
  - intros r Hr. apply Hin; [exact Hr | apply Hidx, Hr].
Qed.

Lemma HighlightView_renders_cited_rows_witness :
  ∃ hs off,
    slice (ui (run_HighlightView backend_row_42 (Some "h1") initial_highlight_state).2)
      = Some hs
    ∧ p_rowFrom (project payload_t1) = Js.Int off
    ∧ length (tbody (HighlightView_table hs))
      = length (default [] (Some ((fun r => mkRawRow None r) <$> six_rows)))
    ∧ (∀ (i : nat) tr, tbody (HighlightView_table hs) !! i = Some tr →
         tr_data_row_index tr = Js.Int (Z.of_nat i + off)
         ∧ (tr_index_className tr = "mono hl" ↔ Z.of_nat i + off ∈ p_rows (project payload_t1)))
    ∧ (∀ r, r ∈ p_rows (project payload_t1) → off ≤ r).
Proof.
  apply (HighlightView_renders_cited_rows backend_row_42 "h1" payload_t1
           (mkSliceData ["amount"] (Some ((fun r => mkRawRow None r) <$> six_rows)))
           initial_highlight_state).
  - reflexivity.
  - reflexivity.
  - reflexivity.
  - discriminate.
  - intros r Hr. apply list_elem_of_singleton in Hr. subst r. lia.
Defined.

(** X4. In the same situation the scroll effect goes to the first cited
    row: with [mn] the least cited row, its target is the body row at
    position [min(mn, 5)], which is the row of index [mn] and is highlighted;
    there is no target exactly when [min(mn, 5)] or fewer rows came back. *)
Theorem HighlightView_scrolls_to_first_cited_row :
  ∀ (backend : Backend) (id : string) (h : HighlightPayload) (d : SliceData)
    (st : HighlightViewState) (mn : Z),
    Js.truthy id = true →
    on_highlight backend id = OkJson h →
    on_slice backend (projected_request h) = OkJson d →
    least mn (p_rows (project h)) →
    (∀ r, r ∈ p_rows (project h) → 0 ≤ r) →
    let shown := slice (ui (run_HighlightView backend (Some id) st).2) in
    ∃ hs,
      shown = Some hs
      ∧ scroll_target shown = tbody (HighlightView_table hs) !! Z.to_nat (Z.min mn 5)
      ∧ (∀ tr, scroll_target shown = Some tr →
           tr_data_row_index tr = Js.Int mn ∧ tr_index_className tr = "mono hl")
      ∧ (scroll_target shown = None
         ↔ Z.of_nat (length (default [] (sd_rows d))) ≤ Z.min mn 5).
Proof.
  intros backend id h d st mn Hid Hh Hd Hleast Hidx shown.
  assert (Hne : p_rows (project h) ≠ []).
  { destruct Hleast as [Hin _]. intros Hnil. rewrite Hnil in Hin.
    apply elem_of_nil in Hin. exact Hin. }
  destruct (project_window h Hne) as (mn' & mx & Hmn & _ & Hfrom & _ & _).
  rewrite <- (least_unique _ _ _ Hleast Hmn) in Hfrom. clear mn' Hmn.
  assert (Hmn0 : 0 ≤ mn) by (apply Hidx, Hleast).
  assert (Hmin : Js.Math_min (Js.Int <$> p_rows (project h)) = Js.Int mn).
  { destruct (p_rows (project h)) as [|r rs] eqn:HR; [congruence|].
    destruct (Math_min_ints r rs) as (m & Hm & Hl).
    rewrite Hm. f_equal. apply (least_unique _ _ _ Hl Hleast). }
  assert (Hpos : Z.of_nat (Z.to_nat (Z.min mn 5)) + Z.max 0 (mn - 5) = mn) by lia.
  eexists. split; [apply (HighlightView_slice_shown backend id h d st Hid Hh Hd)|].
  assert (Htarget : scroll_target shown
            = tbody (DataTable (sd_columns d) (unwrap_row <$> default [] (sd_rows d))
                       (Some (mkHighlight (p_rows (project h)) (p_cols (project h))))
                       (Some (Js.Int (Z.max 0 (mn - 5))))) !! Z.to_nat (Z.min mn 5)).
  { subst shown. rewrite (HighlightView_slice_shown backend id h d st Hid Hh Hd).
    unfold scroll_target. cbn [highlight hl_rows].
    destruct (p_rows (project h)) as [|r rs] eqn:HR; [congruence|].
    rewrite Hmin. unfold HighlightView_table.
    cbn [hs_slice rowFrom highlight columns rows]. rewrite Hfrom.
    rewrite <- Hpos at 1. unfold DataTable. cbn [tbody default].
    apply (find_by_index _ _ (Z.max 0 (mn - 5)) (Z.to_nat (Z.min mn 5))).
    intros i row. reflexivity. }
  unfold HighlightView_table. cbn [hs_slice rowFrom highlight columns rows].
  rewrite Hfrom. split; [exact Htarget|]. split.
  - intros tr Htr. rewrite Htarget in Htr.
    destruct (DataTable_row _ _ _ _ _ _ Htr) as (row & _ & _ & Hi & Hcls & _).
    cbn [Js.add] in Hi. rewrite Hpos in Hi. split; [exact Hi|].
    rewrite Hcls. apply index_class_hl, bool_decide_eq_true.
    apply (hlRows_absolute (mkHighlight (p_rows (project h)) (p_cols (project h)))).
    cbn [hl_rows]. rewrite Hpos. apply Hleast.
  - rewrite Htarget, lookup_ge_None. unfold DataTable. cbn [tbody].
    rewrite length_imap, length_fmap. lia.
Qed.

Lemma HighlightView_scrolls_to_first_cited_row_witness :
  let shown := slice (ui (run_HighlightView backend_row_42 (Some "h1")
                            initial_highlight_state).2) in
  ∃ hs,
    shown = Some hs
    ∧ scroll_target shown = tbody (HighlightView_table hs) !! Z.to_nat (Z.min 42 5)
    ∧ (∀ tr, scroll_target shown = Some tr →
         tr_data_row_index tr = Js.Int 42 ∧ tr_index_className tr = "mono hl")
    ∧ (scroll_target shown = None
       ↔ Z.of_nat (length (default [] (Some ((fun r => mkRawRow None r) <$> six_rows))))
         ≤ Z.min 42 5).
Proof.
  apply (HighlightView_scrolls_to_first_cited_row backend_row_42 "h1" payload_t1
           (mkSliceData ["amount"] (Some ((fun r => mkRawRow None r) <$> six_rows)))
           initial_highlight_state 42).
  - reflexivity.
  - reflexivity.
  - reflexivity.
  - split; [left|]. intros r Hr. apply list_elem_of_singleton in Hr. subst r. lia.
  - intros r Hr. apply list_elem_of_singleton in Hr. subst r. lia.
Defined.

(** ** HighlightView: failures *)

(** X5. When the payload cannot be fetched, or the payload arrives and the
    slice cannot be fetched, the effect returns with the error's text as the
    error shown; nothing is requested after the failed request (no slice
    without payload, no table list without slice), and the slice state is
    left as it was. *)
Theorem HighlightView_failure_shown :
  ∀ (backend : Backend) (id : string) (st : HighlightViewState) (e : Js.Error)
    (requested : list Event),
    Js.truthy id = true →
    (fetch_error (on_highlight backend id) = Some e ∧ requested = [CallHighlight id])
    ∨ (∃ h, on_highlight backend id = OkJson h
            ∧ fetch_error (on_slice backend (projected_request h)) = Some e
            ∧ requested = [CallHighlight id; CallSlice (projected_request h)]) →
    let r := run_HighlightView backend (Some id) st in
    r.1 = Return tt
    ∧ hv_err (ui r.2) = Some (Js.error_text e)
    ∧ slice (ui r.2) = slice st
    ∧ log r.2 = requested
    ∧ table_calls (log r.2) = 0%nat.
Proof.
  intros backend id st e requested Hid [[He ->] | (h & Hh & He & ->)] r.
  - subst r. unfold run_HighlightView, HighlightView_effect.
    rewrite Hid. cbn [negb].
    unfold try_catch, bind, getHighlight, emit, json_or_throw at 1.
    destruct (on_highlight backend id) as [e'|body|h];
      cbn in He; try discriminate He; injection He as <-; repeat split.
  - subst r. unfold run_HighlightView.
    rewrite (HighlightView_effect_run backend id h _ Hid Hh). cbv zeta.
    fold (projected_request h).
    destruct (on_slice backend (projected_request h)) as [e'|body|d];
      cbn in He; try discriminate He; injection He as <-; repeat split.
Qed.

Lemma HighlightView_failure_shown_witness :
  let r := run_HighlightView (backend_no_slice payload_t1) (Some "h1")
             initial_highlight_state in
  r.1 = Return tt
  ∧ hv_err (ui r.2) = Some (Js.error_text (Js.new_Error "Table not found"))
  ∧ slice (ui r.2) = slice initial_highlight_state
  ∧ log r.2 = [CallHighlight "h1"; CallSlice (projected_request payload_t1)]
  ∧ table_calls (log r.2) = 0%nat.
Proof.
  apply (HighlightView_failure_shown (backend_no_slice payload_t1) "h1"
           initial_highlight_state (Js.new_Error "Table not found")).
  - reflexivity.
  - right. exists payload_t1. repeat split.
Defined.

(** X6. When payload and slice arrive, a table list that cannot be fetched
    is not an error of the view: the effect returns, the slice is shown and
    the error shown is what it was; the table name is then unset, and
    otherwise it is the name of the first entry of the list with the
    payload's table id, if that name is not empty. *)
Theorem HighlightView_table_list_failure_hidden :
  ∀ (backend : Backend) (id : string) (h : HighlightPayload) (d : SliceData)
    (st : HighlightViewState),
    Js.truthy id = true →
    on_highlight backend id = OkJson h →
    on_slice backend (projected_request h) = OkJson d →
    let r := run_HighlightView backend (Some id) st in
    r.1 = Return tt
    ∧ hv_err (ui r.2) = hv_err st
    ∧ slice (ui r.2) ≠ None
    ∧ log r.2 = [CallHighlight id; CallSlice (projected_request h); CallTables]
    ∧ tableName (ui r.2) = match on_tables backend with
                           | OkJson ts => table_name_of ts (table_id h)
                           | _ => None
                           end.
Proof.
  intros backend id h d st Hid Hh Hd r. subst r. unfold run_HighlightView.
  rewrite (HighlightView_effect_run backend id h _ Hid Hh). cbv zeta.
  fold (projected_request h). rewrite Hd.
  repeat split; discriminate.
Qed.

Lemma HighlightView_table_list_failure_hidden_witness :
  let r := run_HighlightView backend_row_42 (Some "h1") initial_highlight_state in
  r.1 = Return tt
  ∧ hv_err (ui r.2) = hv_err initial_highlight_state
  ∧ slice (ui r.2) ≠ None
  ∧ log r.2 = [CallHighlight "h1"; CallSlice (projected_request payload_t1); CallTables]
  ∧ tableName (ui r.2) = match on_tables backend_row_42 with
                         | OkJson ts => table_name_of ts (table_id payload_t1)
                         | _ => None
                         end.
Proof.
  apply (HighlightView_table_list_failure_hidden backend_row_42 "h1" payload_t1
           (mkSliceData ["amount"] (Some ((fun r => mkRawRow None r) <$> six_rows)))
           initial_highlight_state); reflexivity.
Defined.

(** ** DataTable without cited rows *)

(** X7. When no row is cited (no [highlight] prop, as in the table view and
    the upload preview, or a highlight whose row list is empty), nothing is
    highlighted, whatever the highlight's columns and the offset: every index
    cell has the class ["mono "] and every data cell the empty class. *)
Theorem DataTable_nothing_cited :
  ∀ (columns : list string) (rows : list Row) (highlight : option Highlight)
    (rowOffset : option Js.number) (i : nat) (tr : Tr),
    from_option hl_rows [] highlight = [] →
    tbody (DataTable columns rows highlight rowOffset) !! i = Some tr →
    tr_index_className tr = "mono "
    ∧ (∀ td, td ∈ tr_cells tr → td_className td = "")
    ∧ td_key <$> tr_cells tr = columns.
Proof.
  intros columns rows highlight rowOffset i tr Hnone Htr.
  assert (Hoff : DataTable columns rows highlight rowOffset
                 = DataTable columns rows highlight (Some (default (Js.Int 0) rowOffset))).
  { destruct rowOffset; reflexivity. }
  rewrite Hoff in Htr.
  destruct (DataTable_row _ _ _ _ _ _ Htr) as (row & _ & _ & _ & Hcls & Hcells).
  assert (Hrow : bool_decide (Js.Int (Z.of_nat i)
                                ∈ hlRows highlight (default (Js.Int 0) rowOffset)) = false).
  { apply bool_decide_eq_false. unfold hlRows. rewrite Hnone. cbn.
    apply not_elem_of_empty. }
  rewrite Hrow in Hcls, Hcells. split; [exact Hcls|]. split.
  - intros td Htd. rewrite Hcells in Htd.
    apply list_elem_of_fmap in Htd as (c & -> & _). reflexivity.
  - rewrite Hcells, <- list_fmap_compose. apply list_fmap_id.
Qed.

Lemma DataTable_nothing_cited_witness :
  ∃ tr,
    tbody (DataTable ["amount"] six_rows None None) !! 5%nat = Some tr
    ∧ tr_index_className tr = "mono "
    ∧ (∀ td, td ∈ tr_cells tr → td_className td = "")
    ∧ td_key <$> tr_cells tr = ["amount"].
Proof.
  eexists. split; [reflexivity|].
  apply (DataTable_nothing_cited ["amount"] six_rows None None 5%nat); reflexivity.
Defined.

(** ** Upload: the preview *)

(** What [loadPreview] does, whatever the answer. *)
Lemma loadPreview_run (backend : Backend) (tableId : string) (w : World UploadState) :
  loadPreview backend tableId w
  = (Return tt,
     mkWorld (previewed backend tableId (ui w)) (log w ++ [CallSlice (preview_request tableId)])).
Proof.
  unfold loadPreview, previewed. async. cbn -[app].
  change (slice_request tableId (Js.Int 0) (Js.Int 50) None) with (preview_request tableId).
  destruct (on_slice backend (preview_request tableId)); reflexivity.
Qed.

(** X8. [loadPreview] never throws. Whatever the backend answers, it sends
    one request, for the rows [0, 50) of the table and all columns; it makes
    the table the active one and ends with the busy flag off; the preview
    and the preview error are never both set: an answer gives the preview, a
    failure gives its text as the preview error; the error of the upload
    form and the table list are not touched. *)
Theorem loadPreview_contains_failure :
  ∀ (backend : Backend) (tableId : string) (w : World UploadState),
    let r := loadPreview backend tableId w in
    r.1 = Return tt
    ∧ log r.2 = log w ++ [CallSlice (slice_request tableId (Js.Int 0) (Js.Int 50) None)]
    ∧ searchParams (slice_request tableId (Js.Int 0) (Js.Int 50) None)
      = [("offset", "0"); ("limit", "50")]
    ∧ activeTableId (ui r.2) = Some tableId
    ∧ previewBusy (ui r.2) = false
    ∧ err (ui r.2) = err (ui w)
    ∧ tables (ui r.2) = tables (ui w)
    ∧ match fetch_error (on_slice backend (slice_request tableId (Js.Int 0) (Js.Int 50) None)) with
      | Some e => preview (ui r.2) = None ∧ previewErr (ui r.2) = Some (Js.error_text e)
      | None => previewErr (ui r.2) = None
                ∧ ∃ s, preview (ui r.2) = Some s ∧ offset s = Js.Int 0 ∧ limit s = Js.Int 50
      end.
Proof.
  intros backend tableId w r. subst r. rewrite loadPreview_run.
  change (slice_request tableId (Js.Int 0) (Js.Int 50) None) with (preview_request tableId).
  unfold previewed. cbn [fst snd ui log].
  destruct (on_slice backend (preview_request tableId)) as [e|body|d];
    cbn; repeat split; eexists; repeat split.
Qed.

(** One iteration that sees a finished job and gets the table list, with
    the state it leaves. *)
Lemma poll_step_success_state (backend : Backend) (jobId : string) (fuel : nat)
    (w : World UploadState) (job : Job) (ts : list TableMeta) :
  on_job backend jobId (polls (log w)) = OkJson job →
  is_success job = true →
  on_tables backend = OkJson ts →
  poll backend (S fuel) jobId w
  = (Return tt,
     mkWorld
       (setName "Uploaded Table"
          (setFile None
             (setToast (Some "File uploaded successfully")
                (match preview_calls job with
                 | rq :: _ => previewed backend (rq_table rq)
                 | [] => fun s => s
                 end (setTables ts (setStatus None (ui w)))))))
       (log w ++ [CallJob jobId (OkJson job); CallTables]
          ++ (CallSlice <$> preview_calls job) ++ [ClearToastAfter 2400])).
Proof.
  intros Hjob Hs Ht. cbn [poll]. unfold bind at 1. unfold getJob. rewrite Hjob.
  unfold bind at 1. cbn [emit json_or_throw ret]. rewrite Hs.
  cbv beta delta [bind ret set emit json_or_throw listTables refresh]. rewrite Ht.
  cbn -[app loadPreview previewed]. unfold preview_calls.
  destruct (job_table_id job) as [tid|]; [destruct (Js.truthy tid)|].
  - rewrite loadPreview_run. cbn -[app previewed]. rewrite <- !app_assoc. reflexivity.
  - cbn -[app]. rewrite <- !app_assoc. reflexivity.
  - cbn -[app]. rewrite <- !app_assoc. reflexivity.
Qed.

(** X9. A preview that cannot be fetched does not fail the upload: when the
    job is finished with a table id and the table list arrives, the run
    returns with no error of the upload form, with the success toast, the
    form reset and the table active; the failure shows as the preview error
    only, and there is no preview. *)
Theorem onUpload_succeeds_without_preview :
  ∀ (backend : Backend) (st : UploadState) (f : File) (jobId : string)
    (js : list Job) (job : Job) (ts : list TableMeta) (tid : string) (e : Js.Error)
    (fuel : nat),
    file st = Some f →
    on_upload backend f (name st) = OkJson (mkUploadResult (Some jobId)) →
    jobId ≠ "" →
    observes backend jobId 0 js →
    on_job backend jobId (length js) = OkJson job →
    is_success job = true →
    on_tables backend = OkJson ts →
    job_table_id job = Some tid →
    tid ≠ "" →
    fetch_error (on_slice backend (preview_request tid)) = Some e →
    (length js < fuel)%nat →
    let r := run_onUpload backend fuel st in
    r.1 = Return tt
    ∧ err (ui r.2) = None
    ∧ toast (ui r.2) = Some "File uploaded successfully"
    ∧ file (ui r.2) = None
    ∧ busy (ui r.2) = false
    ∧ activeTableId (ui r.2) = Some tid
    ∧ preview (ui r.2) = None
    ∧ previewErr (ui r.2) = Some (Js.error_text e)
    ∧ tables (ui r.2) = ts.
Proof.
  intros backend st f jobId js job ts tid e fuel Hfile Hupload Hid Hobs Hjob Hs Ht
    Htid Hne He Hfuel r.
  subst r. replace fuel with (length js + S (fuel - S (length js)))%nat by lia.
  rewrite (onUpload_waited backend st f jobId js Hfile Hupload Hid Hobs).
  rewrite (poll_step_success_state backend jobId _ _ job ts); try assumption.
  2: { cbn [log]. rewrite polls_waited_log. exact Hjob. }
  rewrite settle_return. unfold preview_calls. rewrite Htid.
  apply truthy_nonempty in Hne. rewrite Hne. cbn [rq_table fst snd ui log].
  unfold previewed.
  destruct (on_slice backend (preview_request tid)) as [e'|body|d];
    cbn in He; try discriminate He; injection He as <-; cbn;
    rewrite waited_err; repeat split.
Qed.

Lemma onUpload_succeeds_without_preview_witness :
  let r := run_onUpload backend_no_preview 3 initial_upload_state in
  r.1 = Return tt
  ∧ err (ui r.2) = None
  ∧ toast (ui r.2) = Some "File uploaded successfully"
  ∧ file (ui r.2) = None
  ∧ busy (ui r.2) = false
  ∧ activeTableId (ui r.2) = Some "t9"
  ∧ preview (ui r.2) = None
  ∧ previewErr (ui r.2) = Some (Js.error_text (Js.new_Error "Table not found"))
  ∧ tables (ui r.2) = [mkTableMeta "t9" "sales.csv" 43 2].
Proof.
  apply (onUpload_succeeds_without_preview backend_no_preview initial_upload_state
           (mkFile "sales.csv" "a,b") "j1" []
           (mkJob "done" (Some 100) None (Some "t9"))
           [mkTableMeta "t9" "sales.csv" 43 2] "t9" (Js.new_Error "Table not found") 3).
  - reflexivity.
  - reflexivity.
  - discriminate.
  - intros i j Hj. discriminate Hj.
  - reflexivity.
  - reflexivity.
  - reflexivity.
  - reflexivity.
  - discriminate.
  - reflexivity.
  - cbn. lia.
Defined.

(** ** Upload: runs that do not reach the polling *)

(** X10. When the upload request fails, or is answered without a job id
    (none, or an empty one), the run returns with the error shown, the
    failure's text in the first case and ["Upload started, but no job id was
    returned."] in the second; the upload is the only request of the run: no
    status is polled and no table list fetched; the busy flag is off. *)
Theorem onUpload_not_started :
  ∀ (backend : Backend) (st : UploadState) (f : File) (shown : string) (fuel : nat),
    file st = Some f →
    (∃ e, fetch_error (on_upload backend f (name st)) = Some e ∧ shown = Js.error_text e)
    ∨ ((on_upload backend f (name st) = OkJson (mkUploadResult None)
        ∨ on_upload backend f (name st) = OkJson (mkUploadResult (Some "")))
       ∧ shown = "Upload started, but no job id was returned.") →
    let r := run_onUpload backend fuel st in
    r.1 = Return tt
    ∧ err (ui r.2) = Some shown
    ∧ busy (ui r.2) = false
    ∧ log r.2 = [CallUpload f (name st)]
    ∧ file (ui r.2) = Some f.
Proof.
  intros backend st f shown fuel Hfile Hcase r. subst r.
  unfold run_onUpload, onUpload. async. cbn [ui log]. rewrite Hfile. cbn [ui log app].
  destruct Hcase as [(e & He & ->) | [[Hup | Hup] ->]].
  - destruct (on_upload backend f (name st)) as [e'|body|res];
      cbn in He; try discriminate He; injection He as <-; cbn; repeat split; exact Hfile.
  - rewrite Hup. cbn. repeat split; exact Hfile.
  - rewrite Hup. cbn. repeat split; exact Hfile.
Qed.

Lemma onUpload_not_started_witness :
  let r := run_onUpload backend_no_job_id 5 initial_upload_state in
  r.1 = Return tt
  ∧ err (ui r.2) = Some "Upload started, but no job id was returned."
  ∧ busy (ui r.2) = false
  ∧ log r.2 = [CallUpload (mkFile "sales.csv" "a,b") "sales.csv"]
  ∧ file (ui r.2) = Some (mkFile "sales.csv" "a,b").
Proof.
  apply (onUpload_not_started backend_no_job_id initial_upload_state
           (mkFile "sales.csv" "a,b") "Upload started, but no job id was returned." 5).
  - reflexivity.
  - right. split; [left|]; reflexivity.
Defined.

(** ** Upload: the loop and its fuel *)

(** The loop writes neither the busy flag nor the error. *)
Lemma poll_keeps_busy_err (backend : Backend) (jobId : string) (fuel : nat) :
  ∀ w : World UploadState,
    busy (ui (poll backend fuel jobId w).2) = busy (ui w)
    ∧ err (ui (poll backend fuel jobId w).2) = err (ui w).
Proof.
  induction fuel as [|fuel IH]; intros w; [split; reflexivity|].
  destruct (on_job backend jobId (polls (log w))) as [e|body|job] eqn:Hjob.
  - rewrite (poll_step_fetch_error backend jobId fuel w e) by (rewrite Hjob; reflexivity).
    split; reflexivity.
  - rewrite (poll_step_fetch_error backend jobId fuel w (Js.new_Error body))
      by (rewrite Hjob; reflexivity).
    split; reflexivity.
  - destruct (is_success job) eqn:Hs; [|destruct (is_error job) eqn:He].
    + destruct (on_tables backend) as [e|body|ts] eqn:Ht.
      * rewrite (poll_step_success_stale backend jobId fuel w job e Hjob Hs)
          by (rewrite Ht; reflexivity).
        split; reflexivity.
      * rewrite (poll_step_success_stale backend jobId fuel w job (Js.new_Error body) Hjob Hs)
          by (rewrite Ht; reflexivity).
        split; reflexivity.
      * destruct (poll_step_success_refreshed backend jobId fuel w job ts Hjob Hs Ht)
          as (st' & -> & _ & Herr & Hbusy & _).
        split; assumption.
    + rewrite (poll_step_error backend jobId fuel w job Hjob Hs He). split; reflexivity.
    + assert (Hterm : is_terminal job = false) by (unfold is_terminal; rewrite Hs, He; reflexivity).
      rewrite (poll_step_waiting backend jobId fuel w job Hjob Hterm).
      destruct (IH (mkWorld (setStatus (Some (status_line job)) (ui w))
                      (log w ++ [CallJob jobId (OkJson job); Sleep 500]))) as [Hb He'].
      split; assumption.
Qed.

(** X11. [onUpload] never throws, and it holds the busy flag exactly while it
    runs: a run with a file either has returned, and then the busy flag is
    off, or is still polling, and then the flag is on and no error is
    shown. *)
Theorem onUpload_busy_while_running :
  ∀ (backend : Backend) (fuel : nat) (st : UploadState) (f : File),
    file st = Some f →
    let r := run_onUpload backend fuel st in
    (r.1 = Return tt ∧ busy (ui r.2) = false)
    ∨ (r.1 = Running ∧ busy (ui r.2) = true ∧ err (ui r.2) = None).
Proof.
  intros backend fuel st f Hfile r. subst r.
  destruct (onUpload_cases backend fuel st) as [Hrun | [(f' & e & ->) | (f' & jobId & ->)]].
  - left. revert Hrun. unfold run_onUpload, onUpload. async. cbn [ui]. rewrite Hfile.
    cbn [ui log app].
    match goal with |- context [match ?x with _ => _ end] => destruct x as [[[]|?|] ?] end;
      cbn; intros [= _ Hst]; split; try reflexivity.
    all: rewrite <- Hst; reflexivity.
  - left. split; reflexivity.
  - destruct (poll_keeps_busy_err backend jobId fuel
                (mkWorld (started st) [CallUpload f' (name st)])) as [Hbusy Herr].
    destruct (poll backend fuel jobId _) as [[[]|e|] w]; cbn in Hbusy, Herr.
    + left. split; reflexivity.
    + left. split; reflexivity.
    + right. cbn. repeat split; assumption.
Qed.

Lemma onUpload_busy_while_running_witness :
  let r := run_onUpload backend_stuck 4 initial_upload_state in
  (r.1 = Return tt ∧ busy (ui r.2) = false)
  ∨ (r.1 = Running ∧ busy (ui r.2) = true ∧ err (ui r.2) = None).
Proof.
  apply (onUpload_busy_while_running backend_stuck 4 initial_upload_state
           (mkFile "sales.csv" "a,b")).
  reflexivity.
Defined.

(** As long as the answers do not end the polling, the loop goes on. *)
Lemma poll_never_ends (backend : Backend) (jobId : string) :
  (∀ n, ∃ j, on_job backend jobId n = OkJson j ∧ is_terminal j = false) →
  ∀ (fuel : nat) (w : World UploadState),
    (poll backend fuel jobId w).1 = Running
    ∧ polls (log (poll backend fuel jobId w).2) = (polls (log w) + fuel)%nat.
Proof.
  intros Hstuck. induction fuel as [|fuel IH]; intros w.
  - split; [reflexivity|]. cbn. lia.
  - destruct (Hstuck (polls (log w))) as (j & Hjob & Hterm).
    rewrite (poll_step_waiting backend jobId fuel w j Hjob Hterm).
    destruct (IH (mkWorld (setStatus (Some (status_line j)) (ui w))
                    (log w ++ [CallJob jobId (OkJson j); Sleep 500]))) as [Hc Hp].
    split; [exact Hc|]. rewrite Hp. cbn [log]. rewrite polls_app.
    change (polls [CallJob jobId (OkJson j); Sleep 500]) with 1%nat. lia.
Qed.

(** X12. The loop has no bound of its own: when every poll is answered with
    a status other than [done], [indexing] and [error], then for every
    number [n] the run is still polling after [n] polls. *)
Theorem onUpload_polls_without_bound :
  ∀ (backend : Backend) (st : UploadState) (f : File) (jobId : string) (n : nat),
    file st = Some f →
    on_upload backend f (name st) = OkJson (mkUploadResult (Some jobId)) →
    jobId ≠ "" →
    (∀ k, ∃ j, on_job backend jobId k = OkJson j ∧ is_terminal j = false) →
    (run_onUpload backend n st).1 = Running
    ∧ polls (log (run_onUpload backend n st).2) = n.
Proof.
  intros backend st f jobId n Hfile Hupload Hid Hstuck.
  rewrite (onUpload_started backend st f jobId Hfile Hupload Hid).
  destruct (poll_never_ends backend jobId Hstuck n
              (mkWorld (started st) [CallUpload f (name st)])) as [Hc Hp].
  split.
  - apply settle_running. exact Hc.
  - rewrite settle_log. exact Hp.
Qed.

Lemma onUpload_polls_without_bound_witness :
  (run_onUpload backend_stuck 1000 initial_upload_state).1 = Running
  ∧ polls (log (run_onUpload backend_stuck 1000 initial_upload_state).2) = 1000%nat.
Proof.
  apply (onUpload_polls_without_bound backend_stuck initial_upload_state
           (mkFile "sales.csv" "a,b") "j1" 1000).
  - reflexivity.
  - reflexivity.
  - discriminate.
  - intros k. eexists. split; reflexivity.
Defined.

Lemma settle_pending (w : World UploadState) : settle (Running, w) = (Running, w).
Proof. reflexivity. Qed.

Lemma waited_snoc (js : list Job) (j : Job) (s : UploadState) :
  waited (js ++ [j]) s = setStatus (Some (status_line j)) (waited js s).
Proof. unfold waited. rewrite foldl_app. reflexivity. Qed.

Lemma waited_busy (js : list Job) (s : UploadState) : busy (waited js s) = busy s.
Proof.
  revert s. induction js as [|j js IH]; intros s; [reflexivity|].
  change (busy (waited js (setStatus (Some (status_line j)) s)) = busy s).
  rewrite IH. reflexivity.
Qed.

(** X14. While the job is neither finished nor failed the page shows its
    progress: after the polls that saw the answers [js], the last of them
    [j], the run is still polling, the status line is the one of [j] (its
    message if any, its status and its percentage, 0 without one), the busy
    flag is on and no error is shown. *)
Theorem onUpload_shows_latest_progress :
  ∀ (backend : Backend) (st : UploadState) (f : File) (jobId : string)
    (js : list Job) (j : Job),
    file st = Some f →
    on_upload backend f (name st) = OkJson (mkUploadResult (Some jobId)) →
    jobId ≠ "" →
    observes backend jobId 0 js →
    last js = Some j →
    let r := run_onUpload backend (length js) st in
    r.1 = Running
    ∧ status (ui r.2) = Some (status_line j)
    ∧ busy (ui r.2) = true
    ∧ err (ui r.2) = None
    ∧ log r.2 = CallUpload f (name st) :: waiting jobId js.
Proof.
  intros backend st f jobId js j Hfile Hupload Hid Hobs Hlast r. subst r.
  replace (length js) with (length js + 0)%nat by lia.
  rewrite (onUpload_waited backend st f jobId js Hfile Hupload Hid Hobs).
  change (poll backend 0 jobId) with (@out_of_fuel UploadState unit).
  unfold out_of_fuel. rewrite settle_pending. cbn [fst snd ui log].
  apply last_Some in Hlast as [js' ->].
  split; [reflexivity|]. split.
  { rewrite waited_snoc. reflexivity. }
  split; [rewrite waited_busy; reflexivity|].
  split; [rewrite waited_err; reflexivity|]. reflexivity.
Qed.

Lemma onUpload_shows_latest_progress_witness :
  let r := run_onUpload backend_stuck 2 initial_upload_state in
  let j := mkJob "processing" (Some 10) (Some "Parsing") None in
  r.1 = Running
  ∧ status (ui r.2) = Some (status_line j)
  ∧ busy (ui r.2) = true
  ∧ err (ui r.2) = None
  ∧ log r.2 = CallUpload (mkFile "sales.csv" "a,b") "sales.csv" :: waiting "j1" [j; j].
Proof.
  apply (onUpload_shows_latest_progress backend_stuck initial_upload_state
           (mkFile "sales.csv" "a,b") "j1"
           [mkJob "processing" (Some 10) (Some "Parsing") None;
            mkJob "processing" (Some 10) (Some "Parsing") None]
           (mkJob "processing" (Some 10) (Some "Parsing") None)).
  - reflexivity.
  - reflexivity.
  - discriminate.
  - intros [|[|i]] j Hj; cbn in Hj; try discriminate Hj;
      injection Hj as <-; split; reflexivity.
  - reflexivity.
Defined.

Example status_line_parsing :
  status_line (mkJob "processing" (Some 10) (Some "Parsing") None) = "Parsing processing (10%)"
  ∧ status_line (mkJob "queued" None None None) = "queued (0%)".
Proof. split; vm_compute; reflexivity. Qed.

(** ** Upload: selecting a file *)

(** X22. A selected file is uploaded under its own name unless the name
    field is edited: after [onSelectFile] with a file, every run of
    [onUpload] starts with the upload of that file under the file's name,
    whatever the backend answers and whatever the name field held before. *)
Theorem onUpload_after_select_uses_file_name :
  ∀ (backend : Backend) (fuel : nat) (st : UploadState) (f : File),
    ∃ rest,
      log (run_onUpload backend fuel (onSelectFile (Some f) st)).2
      = CallUpload f (file_name f) :: rest.
Proof.
  intros backend fuel st f.
  set (st' := onSelectFile (Some f) st).
  assert (Hfile : file st' = Some f) by reflexivity.
  assert (Hname : name st' = file_name f) by reflexivity.
  destruct (on_upload backend f (name st')) as [e|body|[[jobId|]]] eqn:Hupload.
  1, 2, 4: exists []; unfold run_onUpload, onUpload; async; cbn [ui log]; rewrite Hfile;
    cbn [ui log app]; rewrite Hupload, Hname; reflexivity.
  destruct (Js.truthy jobId) eqn:Hid.
  2: { exists []. unfold run_onUpload, onUpload. async. cbn [ui log]. rewrite Hfile.
       cbn [ui log app]. rewrite Hupload. cbn [job_id]. rewrite Hid, Hname. reflexivity. }
  apply truthy_nonempty in Hid.
  rewrite (onUpload_started backend st' f jobId Hfile Hupload Hid), settle_log.
  destruct (poll_emits backend jobId fuel (mkWorld (started st') [CallUpload f (name st')]))
    as (es & -> & _).
  exists es. cbn [log app]. rewrite Hname. reflexivity.
Qed.

(** ** Upload: deleting and renaming a table *)

Lemma trimEnd_keeps_head (a : Ascii.ascii) (t : string) :
  is_space a = false → trimEnd (String a t) = String a (trimEnd t).
Proof. intros Ha. cbn. rewrite Ha. destruct (trimEnd t); reflexivity. Qed.

Lemma trimEnd_idempotent (s : string) : trimEnd (trimEnd s) = trimEnd s.
Proof.
  induction s as [|a s IH]; [reflexivity|]. cbn.
  destruct (trimEnd s) as [|b t] eqn:Ht.
  - destruct (is_space a) eqn:Ha; [reflexivity|]. cbn. rewrite Ha. reflexivity.
  - cbn. cbn in IH. rewrite IH. reflexivity.
Qed.

Lemma trimStart_head (s : string) :
  trimStart s = "" ∨ ∃ a t, trimStart s = String a t ∧ is_space a = false.
Proof.
  induction s as [|a s IH]; [left; reflexivity|]. cbn.
  destruct (is_space a) eqn:Ha; [exact IH|]. right. exists a, s. split; [reflexivity | exact Ha].
Qed.

(** A trimmed string is not changed by trimming. *)
Lemma trim_idempotent (s : string) : trim (trim s) = trim s.
Proof.
  unfold trim. destruct (trimStart_head s) as [-> | (a & t & -> & Ha)]; [reflexivity|].
  rewrite (trimEnd_keeps_head a t Ha). cbn [trimStart]. rewrite Ha.
  rewrite <- (trimEnd_keeps_head a t Ha). apply trimEnd_idempotent.
Qed.

Example trim_padded : trim "  costs 2024 " = "costs 2024" ∧ trim "   " = "".
Proof. split; vm_compute; reflexivity. Qed.

Lemma with_upload_state_same (p : UploadPage) : with_upload_state (upload_state p) p = p.
Proof. destruct p; reflexivity. Qed.

Section TableChanges.

Variable backend : Backend.
Variable service : TableService.

(** [refresh] on the page: the list is stored when it arrives, the failure
    is thrown otherwise. *)
Lemma refresh_page_run (w : World UploadPage) :
  refresh_page backend w
  = match on_tables backend with
    | OkJson ts =>
      (Return tt,
       mkWorld (with_upload_state (setTables ts (upload_state (ui w))) (ui w))
               (log w ++ [CallTables]))
    | NotOk body => (Throw (Js.new_Error body), mkWorld (ui w) (log w ++ [CallTables]))
    | Failed e => (Throw e, mkWorld (ui w) (log w ++ [CallTables]))
    end.
Proof.
  unfold refresh_page, zoom, refresh. async. cbn [ui log].
  destruct (on_tables backend); cbn [ui log]; rewrite ?with_upload_state_same; reflexivity.
Qed.

(** What [onDelete] does when the delete request is accepted. *)
Lemma onDelete_accepted (tableId : string) (w : World UploadPage) :
  on_delete service tableId = OkJson tt →
  onDelete backend service tableId w
  = let p := send (DeleteRequest tableId) (ui w) in
    let p' := if bool_decide (activeTableId (upload_state (ui w)) = Some tableId)
              then with_upload_state
                     (setPreview None (setActiveTableId None (upload_state p))) p
              else p in
    match on_tables backend with
    | OkJson ts =>
      (Return tt,
       mkWorld (with_upload_state (setTables ts (upload_state p')) p') (log w ++ [CallTables]))
    | NotOk body =>
      (Return tt,
       mkWorld (with_upload_state
                  (setErr (Some (Js.error_text (Js.new_Error body))) (upload_state p')) p')
               (log w ++ [CallTables]))
    | Failed e =>
      (Return tt,
       mkWorld (with_upload_state (setErr (Some (Js.error_text e)) (upload_state p')) p')
               (log w ++ [CallTables]))
    end.
Proof.
  intros Hdel. unfold onDelete, deleteTable, set_upload.
  cbv beta delta [bind ret throw try_catch set get json_or_throw]. rewrite Hdel.
  cbn [ui log].
  destruct (bool_decide (activeTableId (upload_state (ui w)) = Some tableId));
    cbn [ui log]; rewrite refresh_page_run; cbn [ui log];
    destruct (on_tables backend); reflexivity.
Qed.

End TableChanges.

(** X15. When the delete request is accepted, [onDelete] returns; it has
    sent that one request and then fetched the table list once. The preview
    and the active table are cleared exactly when the deleted table was the
    active one, and are not touched otherwise. When the list arrives it
    replaces the old one and the error shown stays what it was; when it
    does not, its failure is the error shown and the old list stays. *)
Theorem onDelete_clears_preview_of_deleted_table :
  ∀ (backend : Backend) (service : TableService) (tableId : string)
    (w : World UploadPage),
    on_delete service tableId = OkJson tt →
    let r := onDelete backend service tableId w in
    let before := upload_state (ui w) in
    let after := upload_state (ui r.2) in
    r.1 = Return tt
    ∧ sent (ui r.2) = sent (ui w) ++ [DeleteRequest tableId]
    ∧ log r.2 = log w ++ [CallTables]
    ∧ activeTableId after
      = (if bool_decide (activeTableId before = Some tableId) then None
         else activeTableId before)
    ∧ preview after
      = (if bool_decide (activeTableId before = Some tableId) then None else preview before)
    ∧ match on_tables backend with
      | OkJson ts => tables after = ts ∧ err after = err before
      | NotOk body =>
        tables after = tables before
        ∧ err after = Some (Js.error_text (Js.new_Error body))
      | Failed e => tables after = tables before ∧ err after = Some (Js.error_text e)
      end.
Proof.
  intros backend service tableId w Hdel r before after. subst r before after.
  rewrite (onDelete_accepted backend service tableId w Hdel). cbv zeta.
  destruct (bool_decide (activeTableId (upload_state (ui w)) = Some tableId));
    destruct (on_tables backend); repeat split.
Qed.

Lemma onDelete_clears_preview_of_deleted_table_witness :
  let r := onDelete backend_one_table service_ok "t1" (mkWorld page_two_tables []) in
  let before := upload_state page_two_tables in
  let after := upload_state (ui r.2) in
  r.1 = Return tt
  ∧ sent (ui r.2) = [] ++ [DeleteRequest "t1"]
  ∧ log r.2 = [] ++ [CallTables]
  ∧ activeTableId after
    = (if bool_decide (activeTableId before = Some "t1") then None else activeTableId before)
  ∧ preview after
    = (if bool_decide (activeTableId before = Some "t1") then None else preview before)
  ∧ match on_tables backend_one_table with
    | OkJson ts => tables after = ts ∧ err after = err before
    | NotOk body =>
      tables after = tables before ∧ err after = Some (Js.error_text (Js.new_Error body))
    | Failed e => tables after = tables before ∧ err after = Some (Js.error_text e)
    end.
Proof.
  apply (onDelete_clears_preview_of_deleted_table backend_one_table service_ok "t1"
           (mkWorld page_two_tables [])).
  reflexivity.
Defined.

Example onDelete_active_table :
  let r := onDelete backend_one_table service_ok "t1" (mkWorld page_two_tables []) in
  preview (upload_state (ui r.2)) = None
  ∧ activeTableId (upload_state (ui r.2)) = None
  ∧ tables (upload_state (ui r.2)) = [mkTableMeta "t2" "costs.csv" 10 3]
  ∧ err (upload_state (ui r.2)) = Some "old error".
Proof. vm_compute. repeat split. Qed.

(** X16. When the delete request fails, [onDelete] returns with the failure
    as the error shown and does nothing else: the table list is not
    fetched, and the list, the preview and the active table stay as they
    were. *)
Theorem onDelete_failure_changes_nothing :
  ∀ (backend : Backend) (service : TableService) (tableId : string)
    (w : World UploadPage) (e : Js.Error),
    fetch_error (on_delete service tableId) = Some e →
    let r := onDelete backend service tableId w in
    r.1 = Return tt
    ∧ upload_state (ui r.2) = setErr (Some (Js.error_text e)) (upload_state (ui w))
    ∧ sent (ui r.2) = sent (ui w) ++ [DeleteRequest tableId]
    ∧ log r.2 = log w.
Proof.
  intros backend service tableId w e He r. subst r.
  unfold onDelete, deleteTable, set_upload.
  cbv beta delta [bind ret throw try_catch set get json_or_throw].
  destruct (on_delete service tableId) as [e'|body|[]];
    cbn in He; try discriminate He; injection He as <-; repeat split.
Qed.

Lemma onDelete_failure_changes_nothing_witness :
  let r := onDelete backend_one_table service_refusing "t1" (mkWorld page_two_tables []) in
  r.1 = Return tt
  ∧ upload_state (ui r.2)
    = setErr (Some (Js.error_text (Js.new_Error "Table not found")))
        (upload_state page_two_tables)
  ∧ sent (ui r.2) = [] ++ [DeleteRequest "t1"]
  ∧ log r.2 = [].
Proof.
  apply (onDelete_failure_changes_nothing backend_one_table service_refusing "t1"
           (mkWorld page_two_tables []) (Js.new_Error "Table not found")).
  reflexivity.
Defined.

(** X17. A name that is empty or all blanks is refused before anything is
    sent: [onRename] shows ["Name cannot be empty."], sends no request,
    fetches nothing, and leaves the rename form open as it was. *)
Theorem onRename_blank_name_refused :
  ∀ (backend : Backend) (service : TableService) (tableId : string)
    (w : World UploadPage),
    trim (editingName (ui w)) = "" →
    onRename backend service tableId w
    = (Return tt,
       mkWorld (with_upload_state
                  (setErr (Some "Name cannot be empty.") (upload_state (ui w))) (ui w))
               (log w)).
Proof.
  intros backend service tableId w Hblank. unfold onRename, set_upload.
  cbv beta delta [bind ret set get]. cbn [ui log]. rewrite Hblank. reflexivity.
Qed.

Lemma onRename_blank_name_refused_witness :
  onRename backend_one_table service_ok "t2" (mkWorld page_blank_name [])
  = (Return tt,
     mkWorld (with_upload_state
                (setErr (Some "Name cannot be empty.") (upload_state page_blank_name))
                page_blank_name)
             []).
Proof.
  apply (onRename_blank_name_refused backend_one_table service_ok "t2"
           (mkWorld page_blank_name [])).
  vm_compute. reflexivity.
Defined.

(** X18. For a form text of ASCII characters that is not blank, [onRename]
    sends one rename request, whose name is the trimmed text of the form: it
    is not empty and trimming it again changes nothing. When the request is
    accepted the form is closed and emptied and the table list is fetched
    once; when it fails, the failure is the error shown, the form stays open
    with its text, and the list is not fetched. *)
Theorem onRename_sends_trimmed_name :
  ∀ (backend : Backend) (service : TableService) (tableId : string)
    (w : World UploadPage) (next : string),
    is_ascii_text (editingName (ui w)) = true →
    trim (editingName (ui w)) = next →
    next ≠ "" →
    let r := onRename backend service tableId w in
    r.1 = Return tt
    ∧ sent (ui r.2) = sent (ui w) ++ [RenameRequest tableId next]
    ∧ trim next = next
    ∧ match on_rename service tableId next with
      | OkJson _ =>
        editingId (ui r.2) = None ∧ editingName (ui r.2) = ""
        ∧ log r.2 = log w ++ [CallTables]
      | NotOk body =>
        editingId (ui r.2) = editingId (ui w)
        ∧ editingName (ui r.2) = editingName (ui w)
        ∧ err (upload_state (ui r.2)) = Some (Js.error_text (Js.new_Error body))
        ∧ log r.2 = log w
      | Failed e =>
        editingId (ui r.2) = editingId (ui w)
        ∧ editingName (ui r.2) = editingName (ui w)
        ∧ err (upload_state (ui r.2)) = Some (Js.error_text e)
        ∧ log r.2 = log w
      end.
Proof.
  intros backend service tableId w next _ Hnext Hne r. subst r.
  assert (Htrim : trim next = next) by (rewrite <- Hnext; apply trim_idempotent).
  apply truthy_nonempty in Hne.
  unfold onRename, renameTable, set_upload.
  cbv beta delta [bind ret throw try_catch set get json_or_throw]. cbn [ui log].
  rewrite Hnext, Hne. cbn [negb].
  destruct (on_rename service tableId next) as [e|body|[]].
  - repeat split; assumption.
  - repeat split; assumption.
  - cbn [ui log]. rewrite refresh_page_run. cbn [ui log].
    destruct (on_tables backend); repeat split; assumption.
Qed.

Lemma onRename_sends_trimmed_name_witness :
  let r := onRename backend_one_table service_ok "t2" (mkWorld page_two_tables []) in
  r.1 = Return tt
  ∧ sent (ui r.2) = [] ++ [RenameRequest "t2" "costs 2024"]
  ∧ trim "costs 2024" = "costs 2024"
  ∧ match on_rename service_ok "t2" "costs 2024" with
    | OkJson _ =>
      editingId (ui r.2) = None ∧ editingName (ui r.2) = ""
      ∧ log r.2 = [] ++ [CallTables]
    | NotOk body =>
      editingId (ui r.2) = editingId page_two_tables
      ∧ editingName (ui r.2) = editingName page_two_tables
      ∧ err (upload_state (ui r.2)) = Some (Js.error_text (Js.new_Error body))
      ∧ log r.2 = []
    | Failed e =>
      editingId (ui r.2) = editingId page_two_tables
      ∧ editingName (ui r.2) = editingName page_two_tables
      ∧ err (upload_state (ui r.2)) = Some (Js.error_text e)
      ∧ log r.2 = []
    end.
Proof.
  apply (onRename_sends_trimmed_name backend_one_table service_ok "t2"
           (mkWorld page_two_tables []) "costs 2024").
  - vm_compute. reflexivity.
  - vm_compute. reflexivity.
  - discriminate.
Defined.

(** ** TableView: the two effects *)

(** X19. The two effects of [TableView] do not interfere: whichever of the
    two answers is handled first, both effects return and the page ends in
    the same state. One slice is asked for, the rows [0, 100) of the table
    with all columns; its failure is the error shown; a table list that
    cannot be fetched only leaves the name unset. *)
Theorem TableView_effects_commute :
  ∀ (backend : Backend) (id : string) (w : World TableViewPage),
    Js.truthy id = true →
    let slice_first := (TableView_slice_effect backend (Some id) ;;
                        TableView_name_effect backend (Some id)) w in
    let name_first := (TableView_name_effect backend (Some id) ;;
                       TableView_slice_effect backend (Some id)) w in
    let rq := mkSliceRequest id (Js.Int 0) (Js.Int 100) None in
    slice_first.1 = Return tt
    ∧ name_first.1 = Return tt
    ∧ ui slice_first.2 = ui name_first.2
    ∧ slice_calls (log slice_first.2) = slice_calls (log w) ++ [rq]
    ∧ slice_calls (log name_first.2) = slice_calls (log w) ++ [rq]
    ∧ tv_tableName (ui slice_first.2)
      = match on_tables backend with
        | OkJson ts => table_name_of ts id
        | _ => None
        end
    ∧ match fetch_error (on_slice backend rq) with
      | Some e => tv_err (tv (ui slice_first.2)) = Some (Js.error_text e)
                  ∧ tv_data (tv (ui slice_first.2)) = tv_data (tv (ui w))
      | None => tv_err (tv (ui slice_first.2)) = tv_err (tv (ui w))
                ∧ ∃ s, tv_data (tv (ui slice_first.2)) = Some s
                       ∧ offset s = Js.Int 0 ∧ limit s = Js.Int 100
      end.
Proof.
  intros backend id w Hid slice_first name_first rq.
  subst slice_first name_first.
  unfold TableView_slice_effect, TableView_name_effect, TableView_effect, zoom.
  rewrite Hid. cbn [negb].
  cbv beta delta [bind ret throw try_catch set get emit json_or_throw getSlice listTables].
  cbn -[app]. change (slice_request id (Js.Int 0) (Js.Int 100) None) with rq.
  destruct (on_slice backend rq) as [e|body|d]; destruct (on_tables backend) as [e'|body'|ts];
    cbn -[app]; rewrite !slice_calls_app, ?app_nil_r;
    repeat split; eexists; repeat split.
Qed.

Lemma TableView_effects_commute_witness :
  let slice_first := (TableView_slice_effect backend_t9 (Some "t9") ;;
                      TableView_name_effect backend_t9 (Some "t9"))
                       (mkWorld initial_table_view []) in
  let name_first := (TableView_name_effect backend_t9 (Some "t9") ;;
                     TableView_slice_effect backend_t9 (Some "t9"))
                      (mkWorld initial_table_view []) in
  let rq := mkSliceRequest "t9" (Js.Int 0) (Js.Int 100) None in
  slice_first.1 = Return tt
  ∧ name_first.1 = Return tt
  ∧ ui slice_first.2 = ui name_first.2
  ∧ slice_calls (log slice_first.2) = slice_calls [] ++ [rq]
  ∧ slice_calls (log name_first.2) = slice_calls [] ++ [rq]
  ∧ tv_tableName (ui slice_first.2)
    = match on_tables backend_t9 with
      | OkJson ts => table_name_of ts "t9"
      | _ => None
      end
  ∧ match fetch_error (on_slice backend_t9 rq) with
    | Some e => tv_err (tv (ui slice_first.2)) = Some (Js.error_text e)
                ∧ tv_data (tv (ui slice_first.2)) = tv_data (tv initial_table_view)
    | None => tv_err (tv (ui slice_first.2)) = tv_err (tv initial_table_view)
              ∧ ∃ s, tv_data (tv (ui slice_first.2)) = Some s
                     ∧ offset s = Js.Int 0 ∧ limit s = Js.Int 100
    end.
Proof.
  apply (TableView_effects_commute backend_t9 "t9" (mkWorld initial_table_view [])).
  reflexivity.
Defined.

(** ** App: the theme *)

Lemma stored_theme_applied (t : Theme) (b : Browser) :
  stored_theme (apply_theme t b) = Some t.
Proof.
  unfold stored_theme, apply_theme. cbn [localStorage].
  rewrite lookup_insert_eq. destruct t; reflexivity.
Qed.

Lemma session_mount (b : Browser) : session b 0 = mount b.
Proof. reflexivity. Qed.

Lemma session_click (b : Browser) (n : nat) : session b (S n) = toggle (session b n).
Proof. reflexivity. Qed.

(** After mounting and after every click the store and the attribute hold
    the theme of the state. *)
Lemma session_applied (b : Browser) (n : nat) :
  ∃ b', (session b n).2 = apply_theme (session b n).1 b'.
Proof.
  destruct n as [|n].
  - rewrite session_mount. unfold mount.
    destruct (stored_theme b) as [[|]|]; eexists; reflexivity.
  - rewrite session_click. unfold toggle. eexists. reflexivity.
Qed.

(** The entries of the store other than the theme are never written. *)
Lemma session_other_keys (b : Browser) (n : nat) (k : string) :
  k ≠ "theme" → localStorage (session b n).2 !! k = localStorage b !! k.
Proof.
  intros Hk. induction n as [|n IH].
  - rewrite session_mount. unfold mount.
    destruct (stored_theme b) as [[|]|]; cbn [snd apply_theme localStorage];
      rewrite !lookup_insert_ne by congruence; reflexivity.
  - rewrite session_click. unfold toggle.
    cbn [snd apply_theme localStorage]. rewrite lookup_insert_ne by congruence. exact IH.
Qed.

(** X20. The theme is persisted: after mounting [App] on any browser and any
    number of clicks on the toggle, the store's [theme] entry and the
    document's [data-theme] attribute both hold the name of the current
    theme, the other entries of the store are as they were, and mounting
    again on the browser so left (a reload) starts with that same theme. *)
Theorem theme_survives_reload :
  ∀ (b : Browser) (n : nat),
    let s := session b n in
    localStorage s.2 !! "theme" = Some (theme_name s.1)
    ∧ data_theme s.2 = Some (theme_name s.1)
    ∧ (mount s.2).1 = s.1
    ∧ ∀ k, k ≠ "theme" → localStorage s.2 !! k = localStorage b !! k.
Proof.
  intros b n s. subst s.
  destruct (session_applied b n) as [b' Hb']. rewrite Hb'.
  split; [apply lookup_insert_eq|]. split; [reflexivity|]. split.
  - unfold mount. rewrite stored_theme_applied. destruct (session b n).1; reflexivity.
  - intros k Hk. rewrite <- Hb'. apply session_other_keys, Hk.
Qed.

(** X21. A stored theme is honoured only when it is ["light"] or ["dark"]:
    mounting on a browser whose [theme] entry is missing or is any other
    text gives the light theme, and the entry is overwritten with
    ["light"]; a stored ["dark"] gives the dark theme. *)
Theorem mount_reads_stored_theme :
  ∀ (b : Browser),
    (mount b).1 = (if bool_decide (localStorage b !! "theme" = Some "dark") then dark else light)
    ∧ localStorage (mount b).2 !! "theme" = Some (theme_name (mount b).1).
Proof.
  intros b. unfold mount, stored_theme.
  destruct (localStorage b !! "theme") as [stored|] eqn:Hs.
  - destruct (bool_decide (stored = "light")) eqn:Hl.
    + apply bool_decide_eq_true in Hl. subst stored.
      rewrite bool_decide_eq_false_2 by discriminate.
      split; [reflexivity | apply lookup_insert_eq].
    + destruct (bool_decide (stored = "dark")) eqn:Hd.
      * apply bool_decide_eq_true in Hd. subst stored.
        rewrite bool_decide_eq_true_2 by reflexivity.
        split; [reflexivity | apply lookup_insert_eq].
      * apply bool_decide_eq_false in Hd.
        rewrite bool_decide_eq_false_2 by congruence.
        split; [reflexivity | apply lookup_insert_eq].
  - rewrite bool_decide_eq_false_2 by discriminate.
    split; [reflexivity | apply lookup_insert_eq].
Qed.

Example session_dark_three_clicks :
  (session browser_dark 3).1 = light
  ∧ localStorage (session browser_dark 3).2 !! "theme" = Some "light"
  ∧ localStorage (session browser_dark 3).2 !! "lang" = Some "en".
Proof. vm_compute. repeat split. Qed.

Lemma theme_survives_reload_witness :
  let s := session browser_dark 3 in
  localStorage s.2 !! "theme" = Some (theme_name s.1)
  ∧ data_theme s.2 = Some (theme_name s.1)
  ∧ (mount s.2).1 = s.1
  ∧ localStorage s.2 !! "lang" = localStorage browser_dark !! "lang".
Proof.
  destruct (theme_survives_reload browser_dark 3) as (Hstore & Hattr & Hreload & Hother).
  split; [exact Hstore|]. split; [exact Hattr|]. split; [exact Hreload|].
  apply Hother. discriminate.
Defined.
